(** * Weather-App: the WeatherApp class of script.js

    A shallow embedding of the class [WeatherApp] and the properties of its
    search, fetch and render operations.

    Conventions of the embedding.
    - A JavaScript string is a Rocq [string], one [ascii] per UTF-16 code
      unit, so the strings covered are those whose code units lie in
      U+0000..U+00FF.  That range is closed under [String.prototype.trim]
      and [String.prototype.toLowerCase], which are modelled on it exactly.
    - The numbers of the weather records are integers ([Z]); coordinates
      are binary64 floats.
    - [Math.random()] yields a double in the interval from 0 (included) to
      1 (excluded): a significand below 2^53 over a power of two.  The
      product of such a double with an integer constant is rounded to the
      nearest double, ties to even, as the multiplication of the host is.
    - The page is a record of the elements the class touches; an element's
      [classList] is reduced to whether it holds the class [hidden].
    - A method is a function from the world before the call to its outcome
      and the world it leaves.  The outcome is a value, a thrown error, or a
      suspension: at the [await] of a timer, and at a position request, the
      method hands back what is to be resumed, and other handlers may run
      before the host resumes it.  What is resumed runs to its own end or
      to its next suspension without a break, as the jobs of settled
      promises do. *)

From Stdlib Require Import ZArith Lia Bool Ascii String List PrimFloat.
From stdpp Require Import base gmap strings list.

Open Scope Z_scope.
Open Scope string_scope.

(** ** Strings of the host language *)

Module JsString.

Definition code (c : ascii) : N := N_of_ascii c.

(** WhiteSpace and LineTerminator code units below U+0100: TAB, LF, VT,
    FF, CR, SPACE and NO-BREAK SPACE. *)
Definition is_space (c : ascii) : bool :=
  let n := code c in
  ((9 <=? n) && (n <=? 13) || (n =? 32) || (n =? 160))%N.

Fixpoint trimStart (s : string) : string :=
  match s with
  | EmptyString => EmptyString
  | String c r => if is_space c then trimStart r else s
  end.

Fixpoint trimEnd (s : string) : string :=
  match s with
  | EmptyString => EmptyString
  | String c r =>
      match trimEnd r with
      | EmptyString => if is_space c then EmptyString else String c EmptyString
      | r' => String c r'
      end
  end.

(** [s.trim()] *)
Definition trim (s : string) : string := trimEnd (trimStart s).

(** Upper-case code units below U+0100: A..Z and U+00C0..U+00DE without
    the multiplication sign U+00D7; each has its lower case 32 above. *)
Definition is_upper (c : ascii) : bool :=
  let n := code c in
  ((65 <=? n) && (n <=? 90) || (192 <=? n) && (n <=? 222) && negb (n =? 215))%N.

Definition lower_unit (c : ascii) : ascii :=
  if is_upper c then ascii_of_N (code c + 32) else c.

(** [s.toLowerCase()] *)
Fixpoint toLowerCase (s : string) : string :=
  match s with
  | EmptyString => EmptyString
  | String c r => String (lower_unit c) (toLowerCase r)
  end.

(** ToBoolean of a string: only the empty string is falsy. *)
Definition truthy (s : string) : bool :=
  match s with EmptyString => false | String _ _ => true end.

Definition all_space (s : string) : bool :=
  forallb is_space (list_ascii_of_string s).

End JsString.

(** ** Data model *)

Module Current.
(** The object under the key [current] of a weather record. *)
Record t := mk {
  city : string;
  country : string;
  temperature : Z;
  feelsLike : Z;
  description : string;
  humidity : Z;
  windSpeed : Z;
  pressure : Z;
  visibility : Z;
  uvIndex : Z;
  cloudiness : Z;
  icon : string
}.
End Current.

Module Forecast.
(** One element of the array under the key [forecast]. *)
Record entry := mk {
  day : string;
  high : Z;
  low : Z;
  description : string;
  icon : string
}.
End Forecast.

(** The object literal [{ current: ..., forecast: ... }]. *)
Record WeatherData := {
  current : Current.t;
  forecast : list Forecast.entry
}.

(** What [simulateWeatherAPI] can hand back: a weather record, or a member
    that the lookup [cities[cityKey]] finds on [Object.prototype]. *)
Inductive Value :=
| Report (r : WeatherData)
| Inherited (name : string).

(** [v.current] and [v.forecast]; [None] is [undefined]. *)
Definition get_current (v : Value) : option Current.t :=
  match v with Report r => Some (current r) | Inherited _ => None end.

Definition get_forecast (v : Value) : option (list Forecast.entry) :=
  match v with Report r => Some (forecast r) | Inherited _ => None end.

(** Property names of [Object.prototype]; each of them holds a function,
    and [__proto__] yields the prototype object itself, so all are truthy. *)
Definition Object_prototype : list string :=
  [ "constructor"; "__defineGetter__"; "__defineSetter__"; "hasOwnProperty";
    "__lookupGetter__"; "__lookupSetter__"; "isPrototypeOf";
    "propertyIsEnumerable"; "toString"; "valueOf"; "__proto__";
    "toLocaleString" ].

(** [obj[key]] on an object literal with the given own properties: own
    properties first, then the prototype. *)
Definition get_property (own : gmap string WeatherData) (key : string) : option Value :=
  match own !! key with
  | Some r => Some (Report r)
  | None => if bool_decide (key ∈ Object_prototype) then Some (Inherited key) else None
  end.

(** ** The page *)

(** A child [div] of the forecast container: its class and the holes of
    the template assigned to its [innerHTML]. *)
Record ForecastItem := {
  className : string;
  forecast_day : string;
  forecast_icon : string;
  forecast_high : Z;
  forecast_low : Z;
  forecast_desc : string
}.

(** The elements read or written by the class.  A [_hidden] field tells
    whether the element's class list holds [hidden]; a [_text] field is the
    element's [textContent].  For the numeric read-outs the field is the
    interpolated number, which the template follows with a fixed unit. *)
Record Dom := {
  cityInput_value : string;
  loading_hidden : bool;
  error_hidden : bool;
  errorMessage_text : string;
  currentWeather_hidden : bool;
  forecast_hidden : bool;
  forecastContainer_children : list ForecastItem;
  cityName_text : string;
  weatherDate_text : string;
  currentTemp_number : Z;
  feelsLike_number : Z;
  weatherDescription_text : string;
  humidity_number : Z;
  windSpeed_number : Z;
  pressure_number : Z;
  visibility_number : Z;
  uvIndex_number : Z;
  cloudiness_number : Z;
  weatherIconMain_className : string
}.

(** ** The world around the class *)

(** A result of [Math.random()]: the double [numer / 2^expo].  The doubles
    from 0 (included) to 1 (excluded) are the numbers of this form with a
    significand below 2^53 and an exponent from 53 to 1074. *)
Record Rand := {
  numer : Z;
  expo : Z;
  numer_range : andb (0 <=? numer)%Z (numer <? 2 ^ 53)%Z = true;
  expo_range : andb (53 <=? expo)%Z (expo <=? 1074)%Z = true
}.

(** What [getCurrentPosition] does with its two callbacks: it calls the
    first with a position, or the second, or neither. *)
Inductive GeoOutcome :=
| GeoPosition (latitude longitude : float)
| GeoError
| GeoSilent.

(** Calls that leave the class for the host. *)
Inductive HostCall :=
| SetTimeout (ms : Z)
| GetCurrentPosition.

Record World := {
  page : Dom;
  random_tape : nat -> Rand;     (* the successive results of Math.random() *)
  random_drawn : nat;            (* how many have been taken *)
  host_calls : list HostCall;    (* most recent first *)
  geolocation : option GeoOutcome; (* navigator.geolocation, None when absent,
                                      and else what it answers a request with *)
  today : string                 (* new Date().toLocaleDateString('en-US', ...) *)
}.

Definition set_page (d : Dom) (w : World) : World :=
  {| page := d; random_tape := random_tape w; random_drawn := random_drawn w;
     host_calls := host_calls w; geolocation := geolocation w; today := today w |}.

(** The world after [n] more results of [Math.random()] have been taken. *)
Definition draw (n : nat) (w : World) : World :=
  {| page := page w; random_tape := random_tape w;
     random_drawn := (n + random_drawn w)%nat;
     host_calls := host_calls w; geolocation := geolocation w; today := today w |}.

(** The world after the host has been called. *)
Definition called (c : HostCall) (w : World) : World :=
  {| page := page w; random_tape := random_tape w; random_drawn := random_drawn w;
     host_calls := c :: host_calls w; geolocation := geolocation w; today := today w |}.

(** ** Methods as world transformers that may throw or suspend *)

Inductive Error :=
| TypeError (what : string).

Set Warnings "-register-all".

(** How a call ends, or where it stops for now.  [AwaitTimer ms resume]
    stands at [await new Promise(resolve => setTimeout(resolve, ms))]:
    [resume] is what runs when the timer fires, in the world of that
    moment.  [AwaitPosition resume] stands at a position request: [resume]
    is what the host's answer sets off. *)
Inductive Outcome (A : Type) : Type :=
| Ok (a : A)
| Throw (e : Error)
| AwaitTimer (ms : Z) (resume : World -> Outcome A * World)
| AwaitPosition (resume : GeoOutcome -> World -> Outcome A * World).
Arguments Ok {A} a.
Arguments Throw {A} e.
Arguments AwaitTimer {A} ms resume.
Arguments AwaitPosition {A} resume.

Definition M (A : Type) : Type := World -> Outcome A * World.

Definition ret {A} (a : A) : M A := fun w => (Ok a, w).

(** The statements [k] that follow a call which ended as [o] in [w]: run
    now after a value, skipped after a throw, and made part of what is
    resumed after a suspension. *)
Fixpoint and_then {A B} (o : Outcome A) (w : World) (k : A -> M B)
  : Outcome B * World :=
  match o with
  | Ok a => k a w
  | Throw e => (Throw e, w)
  | AwaitTimer ms resume =>
      (AwaitTimer ms (fun w' => let (o', w'') := resume w' in and_then o' w'' k), w)
  | AwaitPosition resume =>
      (AwaitPosition
         (fun answer w' => let (o', w'') := resume answer w' in and_then o' w'' k), w)
  end.

Definition bind {A B} (m : M A) (k : A -> M B) : M B :=
  fun w => let (o, w') := m w in and_then o w' k.

Definition throw {A} (e : Error) : M A := fun w => (Throw e, w).

(** The [catch] block after a [try] block which ended as [o] in [w]. *)
Fixpoint caught {A} (o : Outcome A) (w : World) (handler : Error -> M A)
  : Outcome A * World :=
  match o with
  | Ok a => (Ok a, w)
  | Throw e => handler e w
  | AwaitTimer ms resume =>
      (AwaitTimer ms (fun w' => let (o', w'') := resume w' in caught o' w'' handler), w)
  | AwaitPosition resume =>
      (AwaitPosition
         (fun answer w' => let (o', w'') := resume answer w' in caught o' w'' handler),
       w)
  end.

(** [try { body } catch (error) { handler }] *)
Definition try_catch {A} (body : M A) (handler : Error -> M A) : M A :=
  fun w => let (o, w') := body w in caught o w' handler.

Declare Scope js_scope.
Delimit Scope js_scope with js.
Notation "x <- m ;; k" := (bind m (fun x => k))
  (at level 100, m at next level, right associativity) : js_scope.
Notation "m ;; k" := (bind m (fun _ => k))
  (at level 100, right associativity) : js_scope.
Open Scope js_scope.

(** A method that only rewrites the page. *)
Definition on_page (f : Dom -> Dom) : M unit :=
  fun w => (Ok tt, set_page (f (page w)) w).

(** [await new Promise(resolve => setTimeout(resolve, ms))]: the timer is
    set at once, and the call stops there until it fires. *)
Definition sleep (ms : Z) : M unit :=
  fun w => (AwaitTimer ms (fun w' => (Ok tt, w')), called (SetTimeout ms) w).

(** [navigator.geolocation.getCurrentPosition(success, error)]: the
    request is made at once, and one of the two callbacks, or none, runs
    when the host answers. *)
Definition getCurrentPosition : M GeoOutcome :=
  fun w => (AwaitPosition (fun answer w' => (Ok answer, w')),
            called GetCurrentPosition w).

(** [Math.random()] *)
Definition Math_random : M Rand :=
  fun w => (Ok (random_tape w (random_drawn w)), draw 1 w).

(** The integer [p >= 0] rounded to 53 significant bits, to nearest and
    ties to even: [p] itself when it is below 2^53, and otherwise its 53
    leading bits [q], rounded up when the [s] bits dropped pass one half or
    make one half below an odd [q], put back in place. *)
Definition round53 (p : Z) : Z :=
  if (p <? 2 ^ 53)%Z then p
  else
    let s := Z.log2 p - 52 in
    let q := p / 2 ^ s in
    let rest := p mod 2 ^ s in
    let half := 2 ^ (s - 1) in
    (if orb (half <? rest)%Z (andb (rest =? half)%Z (Z.odd q)) then q + 1 else q) * 2 ^ s.

(** [Math.floor(r * n)] for a result [r] of [Math.random()] and an integer
    constant [n] below 2^53.  The double [r * n] is the exact product
    [numer * n / 2^expo] rounded to the nearest double, which is
    [round53 (numer * n) / 2^expo]: below 2^53 the product is a double
    already, and from 2^53 on it is far above the subnormal range.
    [Math.floor] then takes the integer part. *)
Definition floor_times (r : Rand) (n : Z) : Z := round53 (numer r * n) / 2 ^ expo r.

(** [Math.floor(Math.random() * n) + k] *)
Definition random_int (n k : Z) : M Z :=
  r <- Math_random ;; ret (floor_times r n + k).

Definition read_page : M Dom := fun w => (Ok (page w), w).
Definition navigator_geolocation : M (option GeoOutcome) := fun w => (Ok (geolocation w), w).
Definition toLocaleDateString : M string := fun w => (Ok (today w), w).

(** ** The class WeatherApp *)

Module WeatherApp.

(** *** Page updates *)

Definition set_hidden_loading (b : bool) (d : Dom) : Dom :=
  {| cityInput_value := cityInput_value d; loading_hidden := b;
     error_hidden := error_hidden d; errorMessage_text := errorMessage_text d;
     currentWeather_hidden := currentWeather_hidden d;
     forecast_hidden := forecast_hidden d;
     forecastContainer_children := forecastContainer_children d;
     cityName_text := cityName_text d; weatherDate_text := weatherDate_text d;
     currentTemp_number := currentTemp_number d;
     feelsLike_number := feelsLike_number d;
     weatherDescription_text := weatherDescription_text d;
     humidity_number := humidity_number d; windSpeed_number := windSpeed_number d;
     pressure_number := pressure_number d; visibility_number := visibility_number d;
     uvIndex_number := uvIndex_number d; cloudiness_number := cloudiness_number d;
     weatherIconMain_className := weatherIconMain_className d |}.

Definition set_hidden_error (b : bool) (d : Dom) : Dom :=
  {| cityInput_value := cityInput_value d; loading_hidden := loading_hidden d;
     error_hidden := b; errorMessage_text := errorMessage_text d;
     currentWeather_hidden := currentWeather_hidden d;
     forecast_hidden := forecast_hidden d;
     forecastContainer_children := forecastContainer_children d;
     cityName_text := cityName_text d; weatherDate_text := weatherDate_text d;
     currentTemp_number := currentTemp_number d;
     feelsLike_number := feelsLike_number d;
     weatherDescription_text := weatherDescription_text d;
     humidity_number := humidity_number d; windSpeed_number := windSpeed_number d;
     pressure_number := pressure_number d; visibility_number := visibility_number d;
     uvIndex_number := uvIndex_number d; cloudiness_number := cloudiness_number d;
     weatherIconMain_className := weatherIconMain_className d |}.

Definition set_text_errorMessage (s : string) (d : Dom) : Dom :=
  {| cityInput_value := cityInput_value d; loading_hidden := loading_hidden d;
     error_hidden := error_hidden d; errorMessage_text := s;
     currentWeather_hidden := currentWeather_hidden d;
     forecast_hidden := forecast_hidden d;
     forecastContainer_children := forecastContainer_children d;
     cityName_text := cityName_text d; weatherDate_text := weatherDate_text d;
     currentTemp_number := currentTemp_number d;
     feelsLike_number := feelsLike_number d;
     weatherDescription_text := weatherDescription_text d;
     humidity_number := humidity_number d; windSpeed_number := windSpeed_number d;
     pressure_number := pressure_number d; visibility_number := visibility_number d;
     uvIndex_number := uvIndex_number d; cloudiness_number := cloudiness_number d;
     weatherIconMain_className := weatherIconMain_className d |}.

Definition set_hidden_currentWeather (b : bool) (d : Dom) : Dom :=
  {| cityInput_value := cityInput_value d; loading_hidden := loading_hidden d;
     error_hidden := error_hidden d; errorMessage_text := errorMessage_text d;
     currentWeather_hidden := b;
     forecast_hidden := forecast_hidden d;
     forecastContainer_children := forecastContainer_children d;
     cityName_text := cityName_text d; weatherDate_text := weatherDate_text d;
     currentTemp_number := currentTemp_number d;
     feelsLike_number := feelsLike_number d;
     weatherDescription_text := weatherDescription_text d;
     humidity_number := humidity_number d; windSpeed_number := windSpeed_number d;
     pressure_number := pressure_number d; visibility_number := visibility_number d;
     uvIndex_number := uvIndex_number d; cloudiness_number := cloudiness_number d;
     weatherIconMain_className := weatherIconMain_className d |}.

Definition set_hidden_forecast (b : bool) (d : Dom) : Dom :=
  {| cityInput_value := cityInput_value d; loading_hidden := loading_hidden d;
     error_hidden := error_hidden d; errorMessage_text := errorMessage_text d;
     currentWeather_hidden := currentWeather_hidden d;
     forecast_hidden := b;
     forecastContainer_children := forecastContainer_children d;
     cityName_text := cityName_text d; weatherDate_text := weatherDate_text d;
     currentTemp_number := currentTemp_number d;
     feelsLike_number := feelsLike_number d;
     weatherDescription_text := weatherDescription_text d;
     humidity_number := humidity_number d; windSpeed_number := windSpeed_number d;
     pressure_number := pressure_number d; visibility_number := visibility_number d;
     uvIndex_number := uvIndex_number d; cloudiness_number := cloudiness_number d;
     weatherIconMain_className := weatherIconMain_className d |}.

Definition set_children_forecastContainer (l : list ForecastItem) (d : Dom) : Dom :=
  {| cityInput_value := cityInput_value d; loading_hidden := loading_hidden d;
     error_hidden := error_hidden d; errorMessage_text := errorMessage_text d;
     currentWeather_hidden := currentWeather_hidden d;
     forecast_hidden := forecast_hidden d;
     forecastContainer_children := l;
     cityName_text := cityName_text d; weatherDate_text := weatherDate_text d;
     currentTemp_number := currentTemp_number d;
     feelsLike_number := feelsLike_number d;
     weatherDescription_text := weatherDescription_text d;
     humidity_number := humidity_number d; windSpeed_number := windSpeed_number d;
     pressure_number := pressure_number d; visibility_number := visibility_number d;
     uvIndex_number := uvIndex_number d; cloudiness_number := cloudiness_number d;
     weatherIconMain_className := weatherIconMain_className d |}.

(** The twelve assignments at the head of [displayCurrentWeather]. *)
Definition set_readouts (data : Current.t) (date : string) (d : Dom) : Dom :=
  {| cityInput_value := cityInput_value d; loading_hidden := loading_hidden d;
     error_hidden := error_hidden d; errorMessage_text := errorMessage_text d;
     currentWeather_hidden := currentWeather_hidden d;
     forecast_hidden := forecast_hidden d;
     forecastContainer_children := forecastContainer_children d;
     cityName_text :=
       Current.city data ++
       (if JsString.truthy (Current.country data)
        then ", " ++ Current.country data else "");
     weatherDate_text := date;
     currentTemp_number := Current.temperature data;
     feelsLike_number := Current.feelsLike data;
     weatherDescription_text := Current.description data;
     humidity_number := Current.humidity data;
     windSpeed_number := Current.windSpeed data;
     pressure_number := Current.pressure data;
     visibility_number := Current.visibility data;
     uvIndex_number := Current.uvIndex data;
     cloudiness_number := Current.cloudiness data;
     weatherIconMain_className := Current.icon data |}.

(** *** showLoading, hideLoading, showError *)

Definition showLoading_page (d : Dom) : Dom :=
  set_hidden_forecast true
    (set_hidden_currentWeather true
       (set_hidden_error true (set_hidden_loading false d))).

Definition showLoading : M unit := on_page showLoading_page.

Definition hideLoading : M unit := on_page (set_hidden_loading true).

Definition showError_page (message : string) (d : Dom) : Dom :=
  set_hidden_forecast true
    (set_hidden_currentWeather true
       (set_hidden_error false (set_text_errorMessage message d))).

Definition showError (message : string) : M unit := on_page (showError_page message).

(** *** generateMockForecast *)

Definition days : list string := ["Today"; "Tomorrow"; "Day 3"; "Day 4"; "Day 5"].
Definition descriptions : list string :=
  ["sunny"; "partly cloudy"; "cloudy"; "light rain"; "clear"].
Definition icons : list string :=
  ["fas fa-sun"; "fas fa-cloud-sun"; "fas fa-cloud"; "fas fa-cloud-rain"; "fas fa-sun"].

(** [l.map((x, index) => f(x, index))], the callback run on each element
    in turn, from position [index] on. *)
Fixpoint map_from {A B} (f : A -> nat -> M B) (l : list A) (index : nat) : M (list B) :=
  match l with
  | [] => ret []
  | x :: rest =>
      y <- f x index ;;
      ys <- map_from f rest (S index) ;;
      ret (y :: ys)
  end.

(** The callback of [days.map].  The two array reads are within range,
    their index being a remainder by the array's length. *)
Definition mock_entry (day : string) (index : nat) : M Forecast.entry :=
  high <- random_int 15 20 ;;
  low <- random_int 10 10 ;;
  ret (Forecast.mk day high low
         (descriptions !!! (index mod length descriptions)%nat)
         (icons !!! (index mod length icons)%nat)).

Definition generateMockForecast : M (list Forecast.entry) :=
  map_from mock_entry days 0%nat.

(** *** The fixtures of simulateWeatherAPI *)

Definition new_york : Current.t :=
  Current.mk "New York" "US" 22 25 "partly cloudy" 65 12 1013 10 6 40 "fas fa-cloud-sun".
Definition london : Current.t :=
  Current.mk "London" "UK" 15 13 "light rain" 80 8 1008 8 3 75 "fas fa-cloud-rain".
Definition tokyo : Current.t :=
  Current.mk "Tokyo" "JP" 28 32 "sunny" 55 6 1020 15 8 10 "fas fa-sun".

(** The own properties of the object literal [cities], given the three
    forecasts generated while it is built. *)
Definition cities (f1 f2 f3 : list Forecast.entry) : gmap string WeatherData :=
  <["new york" := {| current := new_york; forecast := f1 |}]>
    (<["london" := {| current := london; forecast := f2 |}]>
       (<["tokyo" := {| current := tokyo; forecast := f3 |}]> ∅)).

(** The object literal of the [else] branch. *)
Definition generic (city : string) : M Value :=
  temperature <- random_int 30 5 ;;
  feelsLike <- random_int 30 5 ;;
  humidity <- random_int 40 40 ;;
  windSpeed <- random_int 15 5 ;;
  pressure <- random_int 50 1000 ;;
  visibility <- random_int 10 5 ;;
  uvIndex <- random_int 10 1 ;;
  cloudiness <- random_int 60 20 ;;
  forecast <- generateMockForecast ;;
  ret (Report
         {| current :=
              Current.mk city "Unknown" temperature feelsLike "clear sky"
                humidity windSpeed pressure visibility uvIndex cloudiness
                "fas fa-sun";
            forecast := forecast |}).

Definition simulateWeatherAPI (city : string) : M Value :=
  sleep 1000 ;;
  f1 <- generateMockForecast ;;
  f2 <- generateMockForecast ;;
  f3 <- generateMockForecast ;;
  let cityKey := JsString.toLowerCase city in
  match get_property (cities f1 f2 f3) cityKey with
  | Some found => ret found
  | None => generic city
  end.

Definition your_location : Current.t :=
  Current.mk "Your Location" "" 20 22 "clear sky" 60 10 1015 12 5 20 "fas fa-sun".

Definition simulateWeatherAPIByCoords (lat lon : float) : M Value :=
  sleep 1000 ;;
  forecast <- generateMockForecast ;;
  ret (Report {| current := your_location; forecast := forecast |}).

(** *** Rendering *)

(** Reading [data.city] of [undefined] throws before any assignment. *)
Definition displayCurrentWeather (data : option Current.t) : M unit :=
  match data with
  | None => throw (TypeError "data is undefined")
  | Some data =>
      date <- toLocaleDateString ;;
      on_page (set_readouts data date) ;;
      on_page (set_hidden_currentWeather false)
  end.

Definition forecastItem (item : Forecast.entry) : ForecastItem :=
  {| className := "forecast-item";
     forecast_day := Forecast.day item;
     forecast_icon := Forecast.icon item;
     forecast_high := Forecast.high item;
     forecast_low := Forecast.low item;
     forecast_desc := Forecast.description item |}.

Definition appendChild (e : ForecastItem) (d : Dom) : Dom :=
  set_children_forecastContainer (forecastContainer_children d ++ [e]) d.

(** [forecastData.forEach(item => { ... appendChild(forecastItem) })] *)
Fixpoint forEach_append (forecastData : list Forecast.entry) : M unit :=
  match forecastData with
  | [] => ret tt
  | item :: rest => on_page (appendChild (forecastItem item)) ;; forEach_append rest
  end.

Definition displayForecast (forecastData : option (list Forecast.entry)) : M unit :=
  on_page (set_children_forecastContainer []) ;;
  match forecastData with
  | None => throw (TypeError "forecastData is undefined")
  | Some forecastData =>
      forEach_append forecastData ;;
      on_page (set_hidden_forecast false)
  end.

(** *** Fetch and render *)

Definition getWeatherData (city : string) : M unit :=
  showLoading ;;
  try_catch
    (weatherData <- simulateWeatherAPI city ;;
     displayCurrentWeather (get_current weatherData) ;;
     displayForecast (get_forecast weatherData) ;;
     hideLoading)
    (fun error =>
       hideLoading ;;
       showError "City not found. Please check the spelling and try again.").

Definition getWeatherByCoords (lat lon : float) : M unit :=
  showLoading ;;
  try_catch
    (weatherData <- simulateWeatherAPIByCoords lat lon ;;
     displayCurrentWeather (get_current weatherData) ;;
     displayForecast (get_forecast weatherData) ;;
     hideLoading)
    (fun error =>
       hideLoading ;;
       showError "Unable to fetch weather data for your location.").

Definition loadDefaultWeather : M unit := getWeatherData "New York".

Definition searchWeather : M unit :=
  d <- read_page ;;
  let city := JsString.trim (cityInput_value d) in
  if negb (JsString.truthy city)
  then showError "Please enter a city name"
  else getWeatherData city.

Definition getCurrentLocation : M unit :=
  geo <- navigator_geolocation ;;
  match geo with
  | None => showError "Geolocation is not supported by this browser"
  | Some _ =>
      showLoading ;;
      answer <- getCurrentPosition ;;
      match answer with
      | GeoPosition latitude longitude => getWeatherByCoords latitude longitude
      | GeoError =>
          hideLoading ;;
          showError "Unable to get your location. Please search manually."
      | GeoSilent => ret tt
      end
  end.

(** *** Listeners and construction *)

Inductive UiEvent :=
| ClickSearch
| KeyPress (key : string)
| ClickLocation.

Definition dispatch (e : UiEvent) : M unit :=
  match e with
  | ClickSearch => searchWeather
  | KeyPress key => if String.eqb key "Enter" then searchWeather else ret tt
  | ClickLocation => getCurrentLocation
  end.

Definition constructor : M unit := loadDefaultWeather.

End WeatherApp.

(** ** Running a method to its end

    A call of a method runs to its first suspension.  What happens next is
    up to the host: it may run other handlers, which change the world,
    before it resumes the method. *)

(** The outcome [o] reached in [w], carried to its end.  At each
    suspension the world is first changed by the next function of
    [between], what other handlers did in the meantime, and the method is
    then resumed: after a timer at once, after a position request with the
    answer the world holds.  An exhausted [between] changes nothing. *)
Fixpoint finish {A} (between : list (World -> World)) (o : Outcome A) (w : World)
  : Outcome A * World :=
  match o with
  | Ok a => (Ok a, w)
  | Throw e => (Throw e, w)
  | AwaitTimer ms resume =>
      let (o', w') := resume (hd id between w) in finish (tl between) o' w'
  | AwaitPosition resume =>
      let (o', w') :=
        resume (default GeoSilent (geolocation (hd id between w))) (hd id between w) in
      finish (tl between) o' w'
  end.

(** The method [m] called in [w] and resumed until it ends, with [between]
    happening at its suspensions. *)
Definition amid {A} (between : list (World -> World)) (m : M A) (w : World)
  : Outcome A * World :=
  let (o, w') := m w in finish between o w'.

(** The method [m] called in [w] and resumed until it ends, no other
    handler running at its suspensions. *)
Definition alone {A} (m : M A) (w : World) : Outcome A * World := amid [] m w.

(** ** What the methods compute

    Closed forms of the values and pages the methods produce, used to state
    their properties. *)

(** The entries [days.map] builds from position [index] on, when the
    results of [Math.random()] are read from [tape] at [p] onwards. *)
Fixpoint entries_from (tape : nat -> Rand) (l : list string) (index p : nat)
  : list Forecast.entry :=
  match l with
  | [] => []
  | day :: rest =>
      Forecast.mk day
        (floor_times (tape p) 15 + 20)
        (floor_times (tape (S p)) 10 + 10)
        (WeatherApp.descriptions !!! (index mod length WeatherApp.descriptions)%nat)
        (WeatherApp.icons !!! (index mod length WeatherApp.icons)%nat)
      :: entries_from tape rest (S index) (S (S p))
  end.

Definition mock_forecast (w : World) : list Forecast.entry :=
  entries_from (random_tape w) WeatherApp.days 0 (random_drawn w).

Definition temperate (e : Forecast.entry) : Prop :=
  20 <= Forecast.high e <= 34 /\ 10 <= Forecast.low e <= 19.

(** The current conditions of the [else] branch, read off the tape. *)
Definition generic_current (city : string) (w : World) : Current.t :=
  let r i := random_tape w (i + random_drawn w)%nat in
  Current.mk city "Unknown"
    (floor_times (r 0%nat) 30 + 5) (floor_times (r 1%nat) 30 + 5) "clear sky"
    (floor_times (r 2%nat) 40 + 40) (floor_times (r 3%nat) 15 + 5)
    (floor_times (r 4%nat) 50 + 1000) (floor_times (r 5%nat) 10 + 5)
    (floor_times (r 6%nat) 10 + 1) (floor_times (r 7%nat) 60 + 20) "fas fa-sun".

(** The world in which [cities] has been built, and the three forecasts
    generated on the way. *)
Definition fetched (w : World) : World := draw 30 (called (SetTimeout 1000) w).

Definition cities_in (w : World) : gmap string WeatherData :=
  let w1 := called (SetTimeout 1000) w in
  WeatherApp.cities (mock_forecast w1) (mock_forecast (draw 10 w1))
    (mock_forecast (draw 20 w1)).

(** Whether [key] is none of the three keys written in [cities]. *)
Definition cities_key_free (key : string) : bool :=
  negb (String.eqb key "new york") && negb (String.eqb key "london")
  && negb (String.eqb key "tokyo").

(** A key that is neither a fixture's nor a property of the prototype
    reaches the [else] branch. *)
Definition plain_key (k : string) : bool :=
  cities_key_free k && negb (bool_decide (k ∈ Object_prototype)).

(** The page once a weather record has been rendered and the loading
    indicator hidden. *)
Definition rendered (r : WeatherData) (date : string) (d : Dom) : Dom :=
  WeatherApp.set_hidden_loading true
    (WeatherApp.set_hidden_forecast false
       (WeatherApp.set_children_forecastContainer
          (map WeatherApp.forecastItem (forecast r))
          (WeatherApp.set_hidden_currentWeather false
             (WeatherApp.set_readouts (current r) date d)))).

(** The page once a fetch method's [catch] block has run. *)
Definition failed (message : string) (d : Dom) : Dom :=
  WeatherApp.showError_page message (WeatherApp.set_hidden_loading true d).

(** The statements of the [try] block after the fetch. *)
Definition try_rest (weatherData : Value) : M unit :=
  WeatherApp.displayCurrentWeather (get_current weatherData) ;;
  WeatherApp.displayForecast (get_forecast weatherData) ;;
  WeatherApp.hideLoading.

(** What is on show once a fetch has settled: the two result regions
    without the error region, or the error region without them. *)
Definition success_shown (d : Dom) : Prop :=
  currentWeather_hidden d = false /\ forecast_hidden d = false /\ error_hidden d = true.

Definition error_shown (d : Dom) : Prop :=
  error_hidden d = false /\ currentWeather_hidden d = true /\ forecast_hidden d = true.

Definition settled (d : Dom) : Prop :=
  loading_hidden d = true /\ (success_shown d \/ error_shown d).

(** The world in which the user has typed [s] into the search field. *)
Definition typing (s : string) (w : World) : World :=
  set_page
    {| cityInput_value := s; loading_hidden := loading_hidden (page w);
       error_hidden := error_hidden (page w);
       errorMessage_text := errorMessage_text (page w);
       currentWeather_hidden := currentWeather_hidden (page w);
       forecast_hidden := forecast_hidden (page w);
       forecastContainer_children := forecastContainer_children (page w);
       cityName_text := cityName_text (page w);
       weatherDate_text := weatherDate_text (page w);
       currentTemp_number := currentTemp_number (page w);
       feelsLike_number := feelsLike_number (page w);
       weatherDescription_text := weatherDescription_text (page w);
       humidity_number := humidity_number (page w);
       windSpeed_number := windSpeed_number (page w);
       pressure_number := pressure_number (page w);
       visibility_number := visibility_number (page w);
       uvIndex_number := uvIndex_number (page w);
       cloudiness_number := cloudiness_number (page w);
       weatherIconMain_className := weatherIconMain_className (page w) |} w.

(** The world in which [navigator.geolocation] is [g]. *)
Definition with_geolocation (g : option GeoOutcome) (w : World) : World :=
  {| page := page w; random_tape := random_tape w; random_drawn := random_drawn w;
     host_calls := host_calls w; geolocation := g; today := today w |}.

(** What the fetch by name resolves with, and the world it leaves. *)
Definition name_lookup (city : string) (w : World) : Value * World :=
  match get_property (cities_in w) (JsString.toLowerCase city) with
  | Some found => (found, fetched w)
  | None =>
      (Report {| current := generic_current city (fetched w);
                 forecast := mock_forecast (draw 8 (fetched w)) |},
       draw 18 (fetched w))
  end.

(** What the fetch by name resolves with when its timer fires in [w], and
    the world it leaves. *)
Definition lookup_at (city : string) (w : World) : Value * World :=
  match get_property
          (WeatherApp.cities (mock_forecast w) (mock_forecast (draw 10 w))
             (mock_forecast (draw 20 w)))
          (JsString.toLowerCase city) with
  | Some found => (found, draw 30 w)
  | None =>
      (Report {| current := generic_current city (draw 30 w);
                 forecast := mock_forecast (draw 8 (draw 30 w)) |},
       draw 18 (draw 30 w))
  end.

(** What [getWeatherData] does when its timer fires in [w]. *)
Definition resumed_name (city : string) (w : World) : Outcome unit * World :=
  match fst (lookup_at city w) with
  | Report r =>
      (Ok tt, set_page (rendered r (today w) (page w)) (snd (lookup_at city w)))
  | Inherited _ =>
      (Ok tt,
       set_page (failed "City not found. Please check the spelling and try again."
                   (page w)) (snd (lookup_at city w)))
  end.

(** What [getWeatherByCoords] does when its timer fires in [w]. *)
Definition resumed_coords (w : World) : Outcome unit * World :=
  (Ok tt,
   set_page (rendered {| current := WeatherApp.your_location;
                         forecast := mock_forecast w |} (today w) (page w))
     (draw 10 w)).

(** The world in which [getWeatherData] and [getWeatherByCoords] stop at
    their timer. *)
Definition loading (w : World) : World :=
  called (SetTimeout 1000) (set_page (WeatherApp.showLoading_page (page w)) w).


(** Everything a page displays about the weather: the four visibility
    flags, the heading, the date, the read-outs, the icon and the forecast
    items.  The search field and the text of the error message are left
    out. *)
Definition display_of (d : Dom) :=
  (loading_hidden d, error_hidden d, currentWeather_hidden d, forecast_hidden d,
   (cityName_text d, weatherDate_text d, weatherDescription_text d,
    weatherIconMain_className d),
   (currentTemp_number d, feelsLike_number d, humidity_number d, windSpeed_number d,
    pressure_number d, visibility_number d, uvIndex_number d, cloudiness_number d),
   forecastContainer_children d).

(** The city heading of a name search, by the lower-cased name. *)
Definition heading_of (city : string) : string :=
  let key := JsString.toLowerCase city in
  if String.eqb key "new york" then "New York, US"
  else if String.eqb key "london" then "London, UK"
  else if String.eqb key "tokyo" then "Tokyo, JP"
  else city ++ ", Unknown".

(** ** A page and a world to run the methods in *)

Definition fresh_page : Dom :=
  {| cityInput_value := ""; loading_hidden := true; error_hidden := true;
     errorMessage_text := ""; currentWeather_hidden := true; forecast_hidden := true;
     forecastContainer_children := []; cityName_text := ""; weatherDate_text := "";
     currentTemp_number := 0; feelsLike_number := 0; weatherDescription_text := "";
     humidity_number := 0; windSpeed_number := 0; pressure_number := 0;
     visibility_number := 0; uvIndex_number := 0; cloudiness_number := 0;
     weatherIconMain_className := "" |}.

(** The doubles that the literals [40.7] and [-74.0] denote. *)
Definition lat_40_7 : float := 0x1.459999999999ap+5%float.
Definition lon_minus_74 : float := (-74)%float.

Definition one_half : Rand :=
  {| numer := 2 ^ 52; expo := 53; numer_range := eq_refl; expo_range := eq_refl |}.

Definition fresh_world : World :=
  {| page := fresh_page; random_tape := fun _ => one_half; random_drawn := 0;
     host_calls := []; geolocation := None; today := "Tuesday, November 3, 2026" |}.

(** Doubles built from integers by exact operations only, to set
    [round53] beside the multiplication of doubles. *)
Fixpoint float_of_positive (p : positive) : float :=
  match p with
  | xH => 1%float
  | xO q => PrimFloat.mul 2 (float_of_positive q)
  | xI q => PrimFloat.add (PrimFloat.mul 2 (float_of_positive q)) 1
  end.

Definition float_of_Z (z : Z) : float :=
  match z with
  | Zpos p => float_of_positive p
  | _ => 0%float
  end.

(** * Properties *)

(** ** trim and toLowerCase on examples *)

Example trim_inner_space_kept : JsString.trim "  New York  " = "New York".
Proof. reflexivity. Qed.

Example trim_tab_newline : JsString.trim (String "009" (String "010" " ")) = "".
Proof. reflexivity. Qed.

Example toLowerCase_new_york : JsString.toLowerCase "New YORK" = "new york".
Proof. reflexivity. Qed.

Example toLowerCase_property_name : JsString.toLowerCase "toString" = "tostring".
Proof. reflexivity. Qed.

(** ** trim *)

Section Trim.
Import JsString.

Lemma trimStart_all_space (s : string) :
  all_space s = true -> trimStart s = "".
Proof.
  induction s as [|c r IH]; simpl; [reflexivity|].
  unfold all_space in *. simpl.
  destruct (is_space c); simpl; [exact IH | discriminate].
Qed.

Lemma trimEnd_empty (s : string) :
  trimEnd s = "" -> all_space s = true.
Proof.
  induction s as [|c r IH]; simpl; [reflexivity|].
  unfold all_space in *. simpl.
  destruct (trimEnd r) eqn:E; [|discriminate].
  destruct (is_space c); [|discriminate].
  intros _. simpl. apply IH. reflexivity.
Qed.

Lemma trimStart_head (s : string) :
  match trimStart s with
  | EmptyString => True
  | String c _ => is_space c = false
  end.
Proof.
  induction s as [|c r IH]; simpl; [exact I|].
  destruct (is_space c) eqn:E; [exact IH | simpl; exact E].
Qed.

Lemma trimStart_empty (s : string) :
  trimStart s = "" -> all_space s = true.
Proof.
  induction s as [|c r IH]; simpl; [reflexivity|].
  unfold all_space in *. simpl.
  destruct (is_space c); [simpl; exact IH | discriminate].
Qed.

(** The trim of a string is empty exactly when the string is empty or
    made of white space only. *)
Lemma trim_empty_iff (s : string) :
  trim s = "" <-> all_space s = true.
Proof.
  unfold trim. split.
  - intros H. apply trimStart_empty.
    pose proof (trimStart_head s) as Hh.
    destruct (trimStart s) as [|c r]; [reflexivity|].
    apply trimEnd_empty in H. unfold all_space in H. simpl in H.
    rewrite Hh in H. discriminate.
  - intros H. rewrite (trimStart_all_space s H). reflexivity.
Qed.

End Trim.

(** ** Random integers *)

Lemma numer_bounds (r : Rand) : 0 <= numer r < 2 ^ 53.
Proof.
  pose proof (numer_range r) as H.
  apply andb_prop in H. destruct H as [H1 H2].
  apply Z.leb_le in H1. apply Z.ltb_lt in H2. lia.
Qed.

Lemma expo_bounds (r : Rand) : 53 <= expo r <= 1074.
Proof.
  pose proof (expo_range r) as H.
  apply andb_prop in H. destruct H as [H1 H2].
  apply Z.leb_le in H1. apply Z.leb_le in H2. lia.
Qed.

(** [round53] against the multiplication of doubles: the double product of
    [k / 2^53] and [n] is [round53 (k * n) / 2^53], here where the exact
    product falls half-way between two doubles, just below an integer, and
    at the largest [k]. *)
Example round53_tie_to_even_10 :
  PrimFloat.mul (PrimFloat.div (float_of_Z 8106479329266892) (float_of_Z (2 ^ 53)))
    (float_of_Z 10)
  = PrimFloat.div (float_of_Z (round53 (8106479329266892 * 10))) (float_of_Z (2 ^ 53))
  /\ round53 (8106479329266892 * 10) / 2 ^ 53 = 9.
Proof. split; vm_compute; reflexivity. Qed.

Example round53_tie_to_even_30 :
  PrimFloat.mul (PrimFloat.div (float_of_Z 4803839602528529) (float_of_Z (2 ^ 53)))
    (float_of_Z 30)
  = PrimFloat.div (float_of_Z (round53 (4803839602528529 * 30))) (float_of_Z (2 ^ 53))
  /\ round53 (4803839602528529 * 30) / 2 ^ 53 = 16.
Proof. split; vm_compute; reflexivity. Qed.

Example round53_largest_60 :
  PrimFloat.mul (PrimFloat.div (float_of_Z (2 ^ 53 - 1)) (float_of_Z (2 ^ 53)))
    (float_of_Z 60)
  = PrimFloat.div (float_of_Z (round53 ((2 ^ 53 - 1) * 60))) (float_of_Z (2 ^ 53))
  /\ round53 ((2 ^ 53 - 1) * 60) / 2 ^ 53 = 59.
Proof. split; vm_compute; reflexivity. Qed.

Example round53_odd_rounds_up_15 :
  PrimFloat.mul (PrimFloat.div (float_of_Z 4803839602528529) (float_of_Z (2 ^ 53)))
    (float_of_Z 15)
  = PrimFloat.div (float_of_Z (round53 (4803839602528529 * 15))) (float_of_Z (2 ^ 53))
  /\ round53 (4803839602528529 * 15) / 2 ^ 53 = 8.
Proof. split; vm_compute; reflexivity. Qed.

(** The same at another exponent: the double written [0.3] is
    [5404319552844595 / 2^54], and [0.3 * 10] is the double 3. *)
Example round53_exponent_54 :
  PrimFloat.mul (PrimFloat.div (float_of_Z 5404319552844595) (float_of_Z (2 ^ 54)))
    (float_of_Z 10)
  = float_of_Z 3
  /\ floor_times {| numer := 5404319552844595; expo := 54;
                    numer_range := eq_refl; expo_range := eq_refl |} 10 = 3.
Proof. split; vm_compute; reflexivity. Qed.

(** [Math.floor(r * 10)] where the exact product is below 9 and the double
    product is 9. *)
Example floor_times_of_rounded_product :
  floor_times {| numer := 8106479329266892; expo := 53;
                 numer_range := eq_refl; expo_range := eq_refl |} 10 = 9
  /\ 8106479329266892 * 10 / 2 ^ 53 = 8.
Proof. split; vm_compute; reflexivity. Qed.

(** Rounding the product of a significand below 2^53 with [n] stays below
    [n * 2^53]: the product is at least [n] short of it, and rounding adds
    at most half of the last place kept, which is less than [n]. *)
Lemma round53_bounds (p n : Z) :
  0 < n -> 0 <= p <= (2 ^ 53 - 1) * n -> 0 <= round53 p < n * 2 ^ 53.
Proof.
  intros Hn [Hp0 Hp]. unfold round53.
  destruct (Z.ltb_spec p (2 ^ 53)) as [Hsmall|Hbig]; [nia|].
  assert (HL : 53 <= Z.log2 p).
  { change 53 with (Z.log2 (2 ^ 53)). apply Z.log2_le_mono. exact Hbig. }
  pose proof (Z.log2_spec p ltac:(lia)) as [Hlo _].
  set (s := Z.log2 p - 52) in *.
  set (h := 2 ^ (s - 1)).
  assert (Hh : 0 < h) by (apply Z.pow_pos_nonneg; lia).
  assert (Hs : 2 ^ s = 2 * h).
  { unfold h. replace s with (Z.succ (s - 1)) at 1 by lia.
    rewrite Z.pow_succ_r by lia. reflexivity. }
  assert (HLh : 2 ^ Z.log2 p = 2 ^ 53 * h).
  { unfold h. rewrite <- Z.pow_add_r by lia. f_equal. lia. }
  rewrite Hs.
  pose proof (Z.div_mod p (2 * h) ltac:(lia)) as Hdm.
  pose proof (Z.mod_pos_bound p (2 * h) ltac:(lia)) as Hm.
  assert (Hq : 0 <= p / (2 * h)) by (apply Z.div_pos; lia).
  assert (Hhn : h < n) by nia.
  destruct (orb (h <? p mod (2 * h))%Z
              (andb (p mod (2 * h) =? h)%Z (Z.odd (p / (2 * h))))) eqn:E.
  - assert (Hr : h <= p mod (2 * h)).
    { apply orb_prop in E. destruct E as [E|E].
      - apply Z.ltb_lt in E. lia.
      - apply andb_prop in E. destruct E as [E _]. apply Z.eqb_eq in E. lia. }
    nia.
  - nia.
Qed.

Lemma floor_times_range (r : Rand) (n : Z) :
  0 < n -> 0 <= floor_times r n < n.
Proof.
  intros Hn. unfold floor_times.
  pose proof (numer_bounds r) as [H0 H1].
  pose proof (expo_bounds r) as [He _].
  pose proof (round53_bounds (numer r * n) n Hn ltac:(nia)) as [Hr0 Hr1].
  assert (Hpow : 2 ^ 53 <= 2 ^ expo r) by (apply Z.pow_le_mono_r; lia).
  split.
  - apply Z.div_pos; lia.
  - apply Z.div_lt_upper_bound; nia.
Qed.

Lemma random_int_run (n k : Z) (w : World) :
  random_int n k w = (Ok (floor_times (random_tape w (random_drawn w)) n + k), draw 1 w).
Proof. reflexivity. Qed.

(** ** Running a method *)

Lemma bind_ok {A B} (m : M A) (k : A -> M B) (w w' : World) (a : A) :
  m w = (Ok a, w') -> bind m k w = k a w'.
Proof. intros H. unfold bind. rewrite H. reflexivity. Qed.

Lemma bind_throw {A B} (m : M A) (k : A -> M B) (w w' : World) (e : Error) :
  m w = (Throw e, w') -> bind m k w = (Throw e, w').
Proof. intros H. unfold bind. rewrite H. reflexivity. Qed.

(** A call that stops at a timer takes the statements after it along. *)
Lemma bind_timer {A B} (m : M A) (k : A -> M B) (w w' : World) (ms : Z)
  (resume : World -> Outcome A * World) :
  m w = (AwaitTimer ms resume, w') ->
  bind m k w =
  (AwaitTimer ms (fun w1 => let (o, w2) := resume w1 in and_then o w2 k), w').
Proof. intros H. unfold bind. rewrite H. reflexivity. Qed.

Lemma try_catch_timer {A} (body : M A) (handler : Error -> M A) (w w' : World)
  (ms : Z) (resume : World -> Outcome A * World) :
  body w = (AwaitTimer ms resume, w') ->
  try_catch body handler w =
  (AwaitTimer ms (fun w1 => let (o, w2) := resume w1 in caught o w2 handler), w').
Proof. intros H. unfold try_catch. rewrite H. reflexivity. Qed.

(** A method that ends at once is at its end, whatever else happens. *)
Lemma amid_ok {A} (between : list (World -> World)) (m : M A) (w w' : World) (a : A) :
  m w = (Ok a, w') -> amid between m w = (Ok a, w').
Proof. intros H. unfold amid. rewrite H. reflexivity. Qed.

Lemma amid_timer {A} (between : list (World -> World)) (m : M A) (w w' : World)
  (ms : Z) (resume : World -> Outcome A * World) :
  m w = (AwaitTimer ms resume, w') ->
  amid between m w =
  (let (o, w1) := resume (hd id between w') in finish (tl between) o w1).
Proof. intros H. unfold amid. rewrite H. reflexivity. Qed.

Lemma draw_draw (n m : nat) (w : World) : draw n (draw m w) = draw (n + m) w.
Proof. unfold draw. simpl. f_equal. lia. Qed.

Lemma draw_page (n : nat) (w : World) : page (draw n w) = page w.
Proof. reflexivity. Qed.
(** ** generateMockForecast *)

Lemma map_from_mock_entry (l : list string) (index : nat) (w : World) :
  WeatherApp.map_from WeatherApp.mock_entry l index w =
  (Ok (entries_from (random_tape w) l index (random_drawn w)),
   draw (2 * length l) w).
Proof.
  revert index w. induction l as [|day rest IH]; intros index w.
  - simpl. unfold ret. f_equal. destruct w; reflexivity.
  - cbn [WeatherApp.map_from entries_from].
    assert (Hentry : WeatherApp.mock_entry day index w =
      (Ok (Forecast.mk day
             (floor_times (random_tape w (random_drawn w)) 15 + 20)
             (floor_times (random_tape w (S (random_drawn w))) 10 + 10)
             (WeatherApp.descriptions !!! (index mod length WeatherApp.descriptions)%nat)
             (WeatherApp.icons !!! (index mod length WeatherApp.icons)%nat)),
       draw 2 w)) by reflexivity.
    rewrite (bind_ok _ _ _ _ _ Hentry).
    rewrite (bind_ok _ _ _ _ _ (IH (S index) (draw 2 w))).
    unfold ret. rewrite draw_draw. f_equal. f_equal.
    cbn [length]. lia.
Qed.

Lemma generateMockForecast_run (w : World) :
  WeatherApp.generateMockForecast w = (Ok (mock_forecast w), draw 10 w).
Proof. apply (map_from_mock_entry WeatherApp.days 0 w). Qed.

Lemma entries_from_length tape l index p :
  length (entries_from tape l index p) = length l.
Proof.
  revert index p. induction l as [|d r IH]; intros; simpl; [reflexivity|].
  f_equal. apply IH.
Qed.

Lemma entries_from_days tape l index p :
  map Forecast.day (entries_from tape l index p) = l.
Proof.
  revert index p. induction l as [|d r IH]; intros; simpl; [reflexivity|].
  f_equal. apply IH.
Qed.

Lemma entries_from_temperate tape l index p :
  Forall temperate (entries_from tape l index p).
Proof.
  revert index p. induction l as [|d r IH]; intros; simpl; constructor.
  - unfold temperate. simpl.
    pose proof (floor_times_range (tape p) 15 ltac:(lia)).
    pose proof (floor_times_range (tape (S p)) 10 ltac:(lia)).
    lia.
  - apply IH.
Qed.

(** ** simulateWeatherAPI *)

Lemma get_property_cities (f1 f2 f3 : list Forecast.entry) (k : string) :
  get_property (WeatherApp.cities f1 f2 f3) k =
  if String.eqb k "new york"
  then Some (Report {| current := WeatherApp.new_york; forecast := f1 |})
  else if String.eqb k "london"
  then Some (Report {| current := WeatherApp.london; forecast := f2 |})
  else if String.eqb k "tokyo"
  then Some (Report {| current := WeatherApp.tokyo; forecast := f3 |})
  else if bool_decide (k ∈ Object_prototype) then Some (Inherited k) else None.
Proof.
  unfold get_property, WeatherApp.cities.
  destruct (String.eqb_spec k "new york") as [->|H1].
  { rewrite lookup_insert_eq. reflexivity. }
  rewrite lookup_insert_ne by congruence.
  destruct (String.eqb_spec k "london") as [->|H2].
  { rewrite lookup_insert_eq. reflexivity. }
  rewrite lookup_insert_ne by congruence.
  destruct (String.eqb_spec k "tokyo") as [->|H3].
  { rewrite lookup_insert_eq. reflexivity. }
  rewrite lookup_insert_ne by congruence.
  rewrite lookup_empty. reflexivity.
Qed.

Lemma generic_run (city : string) (w : World) :
  WeatherApp.generic city w =
  (Ok (Report {| current := generic_current city w;
                 forecast := mock_forecast (draw 8 w) |}),
   draw 18 w).
Proof. reflexivity. Qed.

(** The fetch by name sets its timer and stops; when the timer fires, in
    whatever world, it resolves with the lookup made in that world. *)
Lemma simulateWeatherAPI_suspends (city : string) (w : World) :
  exists resume,
    WeatherApp.simulateWeatherAPI city w =
    (AwaitTimer 1000 resume, called (SetTimeout 1000) w)
    /\ forall w', resume w' = (Ok (fst (lookup_at city w')), snd (lookup_at city w')).
Proof.
  eexists. split; [reflexivity|].
  intros w'. cbv beta. cbn [and_then].
  rewrite (bind_ok _ _ _ _ _ (generateMockForecast_run w')).
  rewrite (bind_ok _ _ _ _ _ (generateMockForecast_run (draw 10 w'))).
  rewrite (bind_ok _ _ _ _ _ (generateMockForecast_run (draw 10 (draw 10 w')))).
  rewrite !draw_draw. cbn [Nat.add].
  unfold lookup_at.
  destruct (get_property _ _); reflexivity.
Qed.

Lemma simulateWeatherAPI_amid (between : list (World -> World)) (city : string)
  (w : World) :
  amid between (WeatherApp.simulateWeatherAPI city) w =
  (Ok (fst (lookup_at city (hd id between (called (SetTimeout 1000) w)))),
   snd (lookup_at city (hd id between (called (SetTimeout 1000) w)))).
Proof.
  destruct (simulateWeatherAPI_suspends city w) as (resume & Hs & Hr).
  rewrite (amid_timer _ _ _ _ _ _ Hs), Hr. reflexivity.
Qed.

Lemma simulateWeatherAPI_run (city : string) (w : World) :
  alone (WeatherApp.simulateWeatherAPI city) w =
  match get_property (cities_in w) (JsString.toLowerCase city) with
  | Some found => (Ok found, fetched w)
  | None => WeatherApp.generic city (fetched w)
  end.
Proof.
  unfold alone. rewrite simulateWeatherAPI_amid.
  cbn [hd id]. unfold lookup_at, cities_in, fetched.
  destruct (get_property _ _); reflexivity.
Qed.

(** The fetch by name always resolves: it never throws. *)
Lemma simulateWeatherAPI_resolves (city : string) (w : World) :
  exists found w', alone (WeatherApp.simulateWeatherAPI city) w = (Ok found, w').
Proof.
  rewrite simulateWeatherAPI_run.
  destruct (get_property _ _) as [found|].
  - eauto.
  - rewrite generic_run. eauto.
Qed.

(** Every fetch by name starts one timer; no other method of the class
    sets one, the fetch by coordinates apart. *)
Lemma simulateWeatherAPI_host_calls (city : string) (w : World) :
  host_calls (snd (alone (WeatherApp.simulateWeatherAPI city) w)) =
  SetTimeout 1000 :: host_calls w.
Proof.
  rewrite simulateWeatherAPI_run.
  destruct (get_property _ _); [reflexivity|].
  rewrite generic_run. reflexivity.
Qed.

Lemma simulateWeatherAPIByCoords_suspends (lat lon : float) (w : World) :
  exists resume,
    WeatherApp.simulateWeatherAPIByCoords lat lon w =
    (AwaitTimer 1000 resume, called (SetTimeout 1000) w)
    /\ forall w',
         resume w' =
         (Ok (Report {| current := WeatherApp.your_location;
                        forecast := mock_forecast w' |}), draw 10 w').
Proof. eexists. split; [reflexivity|]. intros w'. reflexivity. Qed.

Lemma simulateWeatherAPIByCoords_run (lat lon : float) (w : World) :
  alone (WeatherApp.simulateWeatherAPIByCoords lat lon) w =
  (Ok (Report {| current := WeatherApp.your_location;
                 forecast := mock_forecast (called (SetTimeout 1000) w) |}),
   draw 10 (called (SetTimeout 1000) w)).
Proof. reflexivity. Qed.

Lemma simulateWeatherAPI_plain (city : string) (w : World) :
  plain_key (JsString.toLowerCase city) = true ->
  alone (WeatherApp.simulateWeatherAPI city) w =
  (Ok (Report {| current := generic_current city (fetched w);
                 forecast := mock_forecast (draw 8 (fetched w)) |}),
   draw 18 (fetched w)).
Proof.
  intros H. rewrite simulateWeatherAPI_run. unfold cities_in.
  rewrite get_property_cities. unfold plain_key, cities_key_free in H.
  destruct (String.eqb _ "new york"); [discriminate|].
  destruct (String.eqb _ "london"); [discriminate|].
  destruct (String.eqb _ "tokyo"); [discriminate|].
  destruct (bool_decide _); [discriminate|].
  apply generic_run.
Qed.

Lemma generic_current_bounds (city : string) (w : World) :
  5 <= Current.temperature (generic_current city w) <= 34
  /\ Current.description (generic_current city w) = "clear sky"
  /\ Current.city (generic_current city w) = city
  /\ Current.country (generic_current city w) = "Unknown".
Proof.
  unfold generic_current. simpl.
  pose proof (floor_times_range (random_tape w (random_drawn w)) 30 ltac:(lia)).
  repeat split; lia.
Qed.
(** ** Rendering *)

Lemma displayCurrentWeather_some (data : Current.t) (w : World) :
  WeatherApp.displayCurrentWeather (Some data) w =
  (Ok tt,
   set_page (WeatherApp.set_hidden_currentWeather false
               (WeatherApp.set_readouts data (today w) (page w))) w).
Proof. reflexivity. Qed.

Lemma displayCurrentWeather_undefined (w : World) :
  WeatherApp.displayCurrentWeather None w = (Throw (TypeError "data is undefined"), w).
Proof. reflexivity. Qed.

Lemma forEach_append_run (l : list Forecast.entry) (w : World) :
  WeatherApp.forEach_append l w =
  (Ok tt,
   set_page (WeatherApp.set_children_forecastContainer
               (forecastContainer_children (page w) ++ map WeatherApp.forecastItem l)
               (page w)) w).
Proof.
  revert w. induction l as [|item rest IH]; intros w.
  - simpl. unfold ret. rewrite app_nil_r.
    destruct w as [d ? ? ? ? ?]; destruct d; reflexivity.
  - cbn [WeatherApp.forEach_append map].
    assert (H : on_page (WeatherApp.appendChild (WeatherApp.forecastItem item)) w =
                (Ok tt, set_page (WeatherApp.appendChild (WeatherApp.forecastItem item) (page w)) w))
      by reflexivity.
    rewrite (bind_ok _ _ _ _ _ H), IH.
    unfold set_page, WeatherApp.appendChild, WeatherApp.set_children_forecastContainer.
    cbn. rewrite <- app_assoc. reflexivity.
Qed.

Lemma displayForecast_some (l : list Forecast.entry) (w : World) :
  WeatherApp.displayForecast (Some l) w =
  (Ok tt,
   set_page (WeatherApp.set_hidden_forecast false
               (WeatherApp.set_children_forecastContainer
                  (map WeatherApp.forecastItem l) (page w))) w).
Proof.
  unfold WeatherApp.displayForecast.
  assert (H : on_page (WeatherApp.set_children_forecastContainer []) w =
              (Ok tt, set_page (WeatherApp.set_children_forecastContainer [] (page w)) w))
    by reflexivity.
  rewrite (bind_ok _ _ _ _ _ H).
  rewrite (bind_ok _ _ _ _ _ (forEach_append_run l _)).
  reflexivity.
Qed.

Lemma try_rest_report (r : WeatherData) (w : World) :
  try_rest (Report r) w = (Ok tt, set_page (rendered r (today w) (page w)) w).
Proof.
  unfold try_rest. cbn [get_current get_forecast].
  rewrite (bind_ok _ _ _ _ _ (displayCurrentWeather_some _ _)).
  rewrite (bind_ok _ _ _ _ _ (displayForecast_some _ _)).
  reflexivity.
Qed.

Lemma try_rest_inherited (name : string) (w : World) :
  try_rest (Inherited name) w = (Throw (TypeError "data is undefined"), w).
Proof. reflexivity. Qed.

(** ** The fetch methods from start to settlement *)

Lemma showLoading_run (w : World) :
  WeatherApp.showLoading w = (Ok tt, set_page (WeatherApp.showLoading_page (page w)) w).
Proof. reflexivity. Qed.

Lemma hideLoading_showError (message : string) (w : World) :
  bind WeatherApp.hideLoading (fun _ => WeatherApp.showError message) w =
  (Ok tt, set_page (failed message (page w)) w).
Proof. reflexivity. Qed.

(** [getWeatherData] shows the loading state, sets the timer of its fetch
    and stops; when the timer fires, in whatever world, it renders what
    the lookup made in that world gives, or shows its error. *)
Lemma getWeatherData_suspends (city : string) (w : World) :
  exists resume,
    WeatherApp.getWeatherData city w = (AwaitTimer 1000 resume, loading w)
    /\ forall w', resume w' = resumed_name city w'.
Proof.
  destruct (simulateWeatherAPI_suspends city
              (set_page (WeatherApp.showLoading_page (page w)) w))
    as (fetch & Hs & Hf).
  unfold WeatherApp.getWeatherData.
  rewrite (bind_ok _ _ _ _ _ (showLoading_run w)).
  rewrite (try_catch_timer _ _ _ _ _ _ (bind_timer _ _ _ _ _ _ Hs)).
  eexists. split; [reflexivity|].
  intros w'. cbv beta. rewrite Hf. cbn [and_then]. unfold resumed_name.
  destruct (fst (lookup_at city w')) as [r|name].
  - pose proof (try_rest_report r (snd (lookup_at city w'))) as Hr.
    unfold try_rest in Hr. rewrite Hr. cbn [caught].
    assert (Hp : page (snd (lookup_at city w')) = page w'
                 /\ today (snd (lookup_at city w')) = today w').
    { unfold lookup_at. destruct (get_property _ _); split; reflexivity. }
    destruct Hp as [-> ->]. reflexivity.
  - pose proof (try_rest_inherited name (snd (lookup_at city w'))) as Hi.
    unfold try_rest in Hi. rewrite Hi. cbn [caught].
    rewrite hideLoading_showError.
    assert (Hp : page (snd (lookup_at city w')) = page w').
    { unfold lookup_at. destruct (get_property _ _); reflexivity. }
    rewrite Hp. reflexivity.
Qed.

Lemma getWeatherData_amid (between : list (World -> World)) (city : string) (w : World) :
  amid between (WeatherApp.getWeatherData city) w =
  resumed_name city (hd id between (loading w)).
Proof.
  destruct (getWeatherData_suspends city w) as (resume & Hs & Hr).
  rewrite (amid_timer _ _ _ _ _ _ Hs), Hr.
  unfold resumed_name. destruct (fst (lookup_at city _)); reflexivity.
Qed.

Lemma getWeatherByCoords_suspends (lat lon : float) (w : World) :
  exists resume,
    WeatherApp.getWeatherByCoords lat lon w = (AwaitTimer 1000 resume, loading w)
    /\ forall w', resume w' = resumed_coords w'.
Proof.
  destruct (simulateWeatherAPIByCoords_suspends lat lon
              (set_page (WeatherApp.showLoading_page (page w)) w))
    as (fetch & Hs & Hf).
  unfold WeatherApp.getWeatherByCoords.
  rewrite (bind_ok _ _ _ _ _ (showLoading_run w)).
  rewrite (try_catch_timer _ _ _ _ _ _ (bind_timer _ _ _ _ _ _ Hs)).
  eexists. split; [reflexivity|].
  intros w'. cbv beta. rewrite Hf. cbn [and_then].
  pose proof (try_rest_report
                {| current := WeatherApp.your_location; forecast := mock_forecast w' |}
                (draw 10 w')) as Hr.
  unfold try_rest in Hr. rewrite Hr. reflexivity.
Qed.

Lemma getWeatherByCoords_amid (between : list (World -> World)) (lat lon : float)
  (w : World) :
  amid between (WeatherApp.getWeatherByCoords lat lon) w =
  resumed_coords (hd id between (loading w)).
Proof.
  destruct (getWeatherByCoords_suspends lat lon w) as (resume & Hs & Hr).
  rewrite (amid_timer _ _ _ _ _ _ Hs), Hr. reflexivity.
Qed.

(** [getWeatherData] run alone, by what the fetch hands back. *)
Lemma getWeatherData_run (city : string) (w : World) :
  let w1 := set_page (WeatherApp.showLoading_page (page w)) w in
  forall found w2,
    alone (WeatherApp.simulateWeatherAPI city) w1 = (Ok found, w2) ->
    alone (WeatherApp.getWeatherData city) w =
    match found with
    | Report r => (Ok tt, set_page (rendered r (today w2) (page w2)) w2)
    | Inherited _ =>
        (Ok tt,
         set_page (failed "City not found. Please check the spelling and try again."
                     (page w2)) w2)
    end.
Proof.
  intros w1 found w2 H.
  unfold alone in *. rewrite simulateWeatherAPI_amid in H.
  rewrite getWeatherData_amid. cbn [hd id] in *. fold w1 in H.
  change (loading w) with (called (SetTimeout 1000) w1).
  unfold resumed_name.
  injection H as Hfound Hw2. rewrite Hfound, Hw2.
  assert (Hp : page w2 = page (called (SetTimeout 1000) w1)
               /\ today w2 = today (called (SetTimeout 1000) w1)).
  { rewrite <- Hw2. unfold lookup_at. destruct (get_property _ _); split; reflexivity. }
  destruct Hp as [-> ->]. reflexivity.
Qed.

Lemma getWeatherByCoords_run (lat lon : float) (w : World) :
  let w1 := set_page (WeatherApp.showLoading_page (page w)) w in
  let w2 := draw 10 (called (SetTimeout 1000) w1) in
  alone (WeatherApp.getWeatherByCoords lat lon) w =
  (Ok tt,
   set_page (rendered {| current := WeatherApp.your_location;
                         forecast := mock_forecast (called (SetTimeout 1000) w1) |}
               (today w2) (page w2)) w2).
Proof. intros w1 w2. unfold alone. rewrite getWeatherByCoords_amid. reflexivity. Qed.

Lemma mock_forecast_days (w : World) :
  map Forecast.day (mock_forecast w) = WeatherApp.days.
Proof. apply entries_from_days. Qed.

Lemma forecastItem_day (l : list Forecast.entry) :
  map forecast_day (map WeatherApp.forecastItem l) = map Forecast.day l.
Proof. rewrite map_map. reflexivity. Qed.

(** A weather record handed back by the fetch by name carries the five
    day labels in order. *)
Lemma simulateWeatherAPI_report_days (city : string) (w w' : World) (r : WeatherData) :
  alone (WeatherApp.simulateWeatherAPI city) w = (Ok (Report r), w') ->
  map Forecast.day (forecast r) = WeatherApp.days.
Proof.
  rewrite simulateWeatherAPI_run. unfold cities_in. rewrite get_property_cities.
  destruct (String.eqb _ "new york").
  { intros [= <- _]. apply mock_forecast_days. }
  destruct (String.eqb _ "london").
  { intros [= <- _]. apply mock_forecast_days. }
  destruct (String.eqb _ "tokyo").
  { intros [= <- _]. apply mock_forecast_days. }
  destruct (bool_decide _); [discriminate|].
  rewrite generic_run. intros [= <- _]. apply mock_forecast_days.
Qed.

Lemma lookup_at_report_days (city : string) (w : World) (r : WeatherData) :
  fst (lookup_at city w) = Report r ->
  map Forecast.day (forecast r) = WeatherApp.days.
Proof.
  unfold lookup_at. rewrite get_property_cities.
  destruct (String.eqb _ "new york").
  { intros [= <-]. apply mock_forecast_days. }
  destruct (String.eqb _ "london").
  { intros [= <-]. apply mock_forecast_days. }
  destruct (String.eqb _ "tokyo").
  { intros [= <-]. apply mock_forecast_days. }
  destruct (bool_decide _); [discriminate|].
  intros [= <-]. apply mock_forecast_days.
Qed.

Lemma rendered_settled (r : WeatherData) (date : string) (d : Dom) :
  error_hidden d = true -> settled (rendered r date d).
Proof. intros H. split; [reflexivity|]. left. repeat split. exact H. Qed.

Lemma failed_settled (message : string) (d : Dom) : settled (failed message d).
Proof. split; [reflexivity|]. right. repeat split. Qed.
(** ** The claims *)

(** C9. In every entry of every forecast that [generateMockForecast]
    produces, the high lies between 20 and 34, the low between 10 and 19,
    and so the high is strictly greater than the low. *)
Theorem forecast_high_above_low (w : World) :
  exists f w',
    WeatherApp.generateMockForecast w = (Ok f, w')
    /\ Forall (fun e => 20 <= Forecast.high e <= 34
                        /\ 10 <= Forecast.low e <= 19
                        /\ Forecast.low e < Forecast.high e) f.
Proof.
  exists (mock_forecast w), (draw 10 w). split.
  - apply generateMockForecast_run.
  - eapply Forall_impl; [apply entries_from_temperate|].
    intros e [Hh Hl]. lia.
Qed.

(** C10. [simulateWeatherAPIByCoords] ignores its coordinates: from one
    world, any two pairs of coordinates give the same call, and so the
    same outcome whatever happens before its timer fires; and from any two
    worlds the current conditions are the same record, with city
    "Your Location", empty country and temperature 20. *)
Theorem coordinates_have_no_influence (lat1 lon1 lat2 lon2 : float) (w1 w2 : World) :
  WeatherApp.simulateWeatherAPIByCoords lat1 lon1 w1 =
  WeatherApp.simulateWeatherAPIByCoords lat2 lon2 w1
  /\ exists r1 r2 w1' w2',
       alone (WeatherApp.simulateWeatherAPIByCoords lat1 lon1) w1 = (Ok (Report r1), w1')
       /\ alone (WeatherApp.simulateWeatherAPIByCoords lat2 lon2) w2 = (Ok (Report r2), w2')
       /\ current r1 = current r2
       /\ current r1 =
          Current.mk "Your Location" "" 20 22 "clear sky" 60 10 1015 12 5 20 "fas fa-sun".
Proof.
  split; [reflexivity|].
  rewrite (simulateWeatherAPIByCoords_run lat1 lon1 w1).
  rewrite (simulateWeatherAPIByCoords_run lat2 lon2 w2).
  do 4 eexists. repeat split.
Qed.

(** C4. The fixture lookup of [simulateWeatherAPI] is case-insensitive:
    "LONDON", "London" and "london" give the same outcome, whatever happens
    before the timer fires: the London fixture, whose temperature is 15,
    description "light rain" and country "UK". *)
Theorem london_in_any_case (w : World) :
  (forall between,
      amid between (WeatherApp.simulateWeatherAPI "LONDON") w
      = amid between (WeatherApp.simulateWeatherAPI "london") w)
  /\ (forall between,
         amid between (WeatherApp.simulateWeatherAPI "London") w
         = amid between (WeatherApp.simulateWeatherAPI "london") w)
  /\ exists f,
       alone (WeatherApp.simulateWeatherAPI "london") w =
       (Ok (Report {| current := WeatherApp.london; forecast := f |}), fetched w)
       /\ Current.temperature WeatherApp.london = 15
       /\ Current.description WeatherApp.london = "light rain"
       /\ Current.country WeatherApp.london = "UK".
Proof.
  assert (Hkey : forall city w',
             JsString.toLowerCase city = "london" ->
             lookup_at city w' =
             (Report {| current := WeatherApp.london;
                        forecast := mock_forecast (draw 10 w') |}, draw 30 w')).
  { intros city w' E. unfold lookup_at. rewrite get_property_cities, E. reflexivity. }
  split; [|split].
  - intros between. rewrite !simulateWeatherAPI_amid.
    rewrite (Hkey "LONDON" _ eq_refl), (Hkey "london" _ eq_refl). reflexivity.
  - intros between. rewrite !simulateWeatherAPI_amid.
    rewrite (Hkey "London" _ eq_refl), (Hkey "london" _ eq_refl). reflexivity.
  - unfold alone. rewrite simulateWeatherAPI_amid, (Hkey "london" _ eq_refl).
    eexists. repeat split.
Qed.

(** C1. When the trim of the search field is empty (the field is empty or
    holds white space only), [searchWeather] shows "Please enter a city
    name" and does nothing else: the host is not called, so no timer of a
    fetch is set, no random number is drawn, and the loading indicator is
    left as it was. *)
Theorem searchWeather_blank_input (w : World) :
  JsString.trim (cityInput_value (page w)) = "" ->
  WeatherApp.searchWeather w =
  (Ok tt, set_page (WeatherApp.showError_page "Please enter a city name" (page w)) w)
  /\ errorMessage_text (page (snd (WeatherApp.searchWeather w))) = "Please enter a city name"
  /\ error_hidden (page (snd (WeatherApp.searchWeather w))) = false
  /\ host_calls (snd (WeatherApp.searchWeather w)) = host_calls w
  /\ random_drawn (snd (WeatherApp.searchWeather w)) = random_drawn w
  /\ loading_hidden (page (snd (WeatherApp.searchWeather w))) = loading_hidden (page w).
Proof.
  intros H.
  assert (E : WeatherApp.searchWeather w =
              (Ok tt, set_page (WeatherApp.showError_page "Please enter a city name" (page w)) w)).
  { unfold WeatherApp.searchWeather.
    assert (Hr : read_page w = (Ok (page w), w)) by reflexivity.
    rewrite (bind_ok _ _ _ _ _ Hr), H. reflexivity. }
  rewrite E. repeat split.
Qed.

Lemma searchWeather_blank_input_witness :
  WeatherApp.searchWeather (typing "  " fresh_world) =
  (Ok tt,
   set_page (WeatherApp.showError_page "Please enter a city name"
               (page (typing "  " fresh_world))) (typing "  " fresh_world))
  /\ errorMessage_text (page (snd (WeatherApp.searchWeather (typing "  " fresh_world))))
     = "Please enter a city name"
  /\ error_hidden (page (snd (WeatherApp.searchWeather (typing "  " fresh_world)))) = false
  /\ host_calls (snd (WeatherApp.searchWeather (typing "  " fresh_world)))
     = host_calls (typing "  " fresh_world)
  /\ random_drawn (snd (WeatherApp.searchWeather (typing "  " fresh_world)))
     = random_drawn (typing "  " fresh_world)
  /\ loading_hidden (page (snd (WeatherApp.searchWeather (typing "  " fresh_world))))
     = loading_hidden (page (typing "  " fresh_world)).
Proof. apply (searchWeather_blank_input (typing "  " fresh_world)). reflexivity. Defined.

(** C2. Every forecast that [generateMockForecast] produces has exactly
    five entries with the day labels Today, Tomorrow, Day 3, Day 4, Day 5
    in that order; [displayForecast] leaves in the container the items of
    the forecast it is given and nothing of what was there before; and
    whenever a fetch method leaves the forecast region on show, the
    container holds five items with those labels in that order, whatever
    other handlers did while the fetch was pending. *)
Theorem forecast_five_days_in_order :
  (forall w, exists f,
      WeatherApp.generateMockForecast w = (Ok f, draw 10 w)
      /\ length f = 5%nat
      /\ map Forecast.day f = ["Today"; "Tomorrow"; "Day 3"; "Day 4"; "Day 5"])
  /\ (forall f w, exists w',
         WeatherApp.displayForecast (Some f) w = (Ok tt, w')
         /\ forecastContainer_children (page w') = map WeatherApp.forecastItem f
         /\ forecast_hidden (page w') = false)
  /\ (forall between city w,
         forecast_hidden (page (snd (amid between (WeatherApp.getWeatherData city) w)))
         = true
         \/ map forecast_day
              (forecastContainer_children
                 (page (snd (amid between (WeatherApp.getWeatherData city) w))))
            = ["Today"; "Tomorrow"; "Day 3"; "Day 4"; "Day 5"])
  /\ (forall between lat lon w,
         forecast_hidden
           (page (snd (amid between (WeatherApp.getWeatherByCoords lat lon) w))) = false
         /\ map forecast_day
              (forecastContainer_children
                 (page (snd (amid between (WeatherApp.getWeatherByCoords lat lon) w))))
            = ["Today"; "Tomorrow"; "Day 3"; "Day 4"; "Day 5"]).
Proof.
  split; [|split; [|split]].
  - intros w. exists (mock_forecast w). split; [apply generateMockForecast_run|].
    split.
    + unfold mock_forecast. rewrite entries_from_length. reflexivity.
    + apply mock_forecast_days.
  - intros f w. eexists. split; [apply displayForecast_some|].
    split; reflexivity.
  - intros between city w. rewrite getWeatherData_amid. unfold resumed_name.
    destruct (fst (lookup_at city _)) as [r|name] eqn:E.
    + right. cbn [snd]. unfold rendered, set_page. cbn.
      rewrite forecastItem_day.
      apply (lookup_at_report_days _ _ _ E).
    + left. reflexivity.
  - intros between lat lon w. rewrite getWeatherByCoords_amid.
    unfold resumed_coords. cbn [snd].
    split; [reflexivity|].
    unfold rendered, set_page. cbn [page forecastContainer_children
      WeatherApp.set_hidden_loading WeatherApp.set_hidden_forecast
      WeatherApp.set_children_forecastContainer forecast].
    rewrite forecastItem_day. apply mock_forecast_days.
Qed.

(** [getCurrentLocation] run alone: without the capability it ends at
    once; with it, the answer the world holds decides what follows the
    request. *)
Lemma getCurrentLocation_run (w : World) :
  alone WeatherApp.getCurrentLocation w =
  match geolocation w with
  | None =>
      (Ok tt,
       set_page (WeatherApp.showError_page
                   "Geolocation is not supported by this browser" (page w)) w)
  | Some outcome =>
      let w1 := called GetCurrentPosition
                  (set_page (WeatherApp.showLoading_page (page w)) w) in
      match outcome with
      | GeoPosition latitude longitude =>
          alone (WeatherApp.getWeatherByCoords latitude longitude) w1
      | GeoError =>
          (Ok tt,
           set_page (failed "Unable to get your location. Please search manually."
                       (page w1)) w1)
      | GeoSilent => (Ok tt, w1)
      end
  end.
Proof.
  destruct w as [d tape n calls geo date].
  destruct geo as [[lat lon| |]|]; reflexivity.
Qed.

(** C6. When the position request answers with the coordinates
    (40.7, -74.0), the fetch by coordinates hands back current conditions
    whose city is "Your Location", and [getCurrentLocation] ends with that
    label in the city heading and the result regions on show. *)
Theorem your_location_rendered
  (d : Dom) (tape : nat -> Rand) (n : nat) (calls : list HostCall) (date : string) :
  let w := {| page := d; random_tape := tape; random_drawn := n; host_calls := calls;
              geolocation := Some (GeoPosition lat_40_7 lon_minus_74); today := date |} in
  (exists r w',
      alone (WeatherApp.simulateWeatherAPIByCoords lat_40_7 lon_minus_74) w
      = (Ok (Report r), w')
      /\ Current.city (current r) = "Your Location")
  /\ fst (alone WeatherApp.getCurrentLocation w) = Ok tt
  /\ cityName_text (page (snd (alone WeatherApp.getCurrentLocation w))) = "Your Location"
  /\ settled (page (snd (alone WeatherApp.getCurrentLocation w)))
  /\ success_shown (page (snd (alone WeatherApp.getCurrentLocation w))).
Proof.
  intros w. split.
  - rewrite simulateWeatherAPIByCoords_run. do 2 eexists. split; reflexivity.
  - rewrite getCurrentLocation_run. cbn [geolocation w]. cbv zeta.
    rewrite getWeatherByCoords_run. cbn [fst snd].
    split; [reflexivity|]. split; [reflexivity|].
    split; [apply rendered_settled; reflexivity|].
    repeat split.
Qed.

Lemma lookup_at_page (city : string) (w : World) :
  page (snd (lookup_at city w)) = page w.
Proof. unfold lookup_at. destruct (get_property _ _); reflexivity. Qed.

(** The page once [getWeatherData] has been resumed in [w]. *)
Lemma resumed_name_page (city : string) (w : World) :
  page (snd (resumed_name city w)) =
  match fst (lookup_at city w) with
  | Report r => rendered r (today w) (page w)
  | Inherited _ =>
      failed "City not found. Please check the spelling and try again." (page w)
  end.
Proof. unfold resumed_name. destruct (fst (lookup_at city w)); reflexivity. Qed.



(** ** Names that reach the prototype *)

Lemma cities_own_keys (f1 f2 f3 : list Forecast.entry) (k : string) :
  WeatherApp.cities f1 f2 f3 !! k =
  if String.eqb k "new york"
  then Some {| current := WeatherApp.new_york; forecast := f1 |}
  else if String.eqb k "london"
  then Some {| current := WeatherApp.london; forecast := f2 |}
  else if String.eqb k "tokyo"
  then Some {| current := WeatherApp.tokyo; forecast := f3 |}
  else None.
Proof.
  unfold WeatherApp.cities.
  destruct (String.eqb_spec k "new york") as [->|H1].
  { apply lookup_insert_eq. }
  rewrite lookup_insert_ne by congruence.
  destruct (String.eqb_spec k "london") as [->|H2].
  { apply lookup_insert_eq. }
  rewrite lookup_insert_ne by congruence.
  destruct (String.eqb_spec k "tokyo") as [->|H3].
  { apply lookup_insert_eq. }
  rewrite lookup_insert_ne by congruence.
  apply lookup_empty.
Qed.

(** The fetch hands back a member of the prototype when the lower-cased
    name is one of its property names. *)
Lemma simulateWeatherAPI_inherited (city : string) (w : World) :
  cities_key_free (JsString.toLowerCase city) = true ->
  bool_decide (JsString.toLowerCase city ∈ Object_prototype) = true ->
  alone (WeatherApp.simulateWeatherAPI city) w =
  (Ok (Inherited (JsString.toLowerCase city)), fetched w).
Proof.
  intros Hfree Hin. rewrite simulateWeatherAPI_run. unfold cities_in.
  rewrite get_property_cities. unfold cities_key_free in Hfree.
  destruct (String.eqb _ "new york"); [discriminate|].
  destruct (String.eqb _ "london"); [discriminate|].
  destruct (String.eqb _ "tokyo"); [discriminate|].
  rewrite Hin. reflexivity.
Qed.

(** The city heading after a search for a name that is no fixture's and
    no property name of the prototype: the name as typed. *)
Lemma getWeatherData_plain (city : string) (w : World) :
  plain_key (JsString.toLowerCase city) = true ->
  cityName_text (page (snd (alone (WeatherApp.getWeatherData city) w)))
  = city ++ ", Unknown"
  /\ success_shown (page (snd (alone (WeatherApp.getWeatherData city) w))).
Proof.
  intros H.
  rewrite (getWeatherData_run city w _ _ (simulateWeatherAPI_plain city _ H)).
  cbn [snd]. split; [reflexivity|]. repeat split.
Qed.

(** The outcome of a search for a name whose lower case is a property
    name of the prototype: the [catch] block's message. *)
Lemma getWeatherData_inherited (city : string) (w : World) :
  cities_key_free (JsString.toLowerCase city) = true ->
  bool_decide (JsString.toLowerCase city ∈ Object_prototype) = true ->
  alone (WeatherApp.getWeatherData city) w =
  (Ok tt,
   set_page (failed "City not found. Please check the spelling and try again."
               (WeatherApp.showLoading_page (page w)))
     (fetched (set_page (WeatherApp.showLoading_page (page w)) w))).
Proof.
  intros Hfree Hin.
  rewrite (getWeatherData_run city w _ _ (simulateWeatherAPI_inherited city _ Hfree Hin)).
  reflexivity.
Qed.

Lemma searchWeather_cases (w : World) :
  WeatherApp.searchWeather w =
  if JsString.truthy (JsString.trim (cityInput_value (page w)))
  then WeatherApp.getWeatherData (JsString.trim (cityInput_value (page w))) w
  else WeatherApp.showError "Please enter a city name" w.
Proof.
  unfold WeatherApp.searchWeather.
  assert (Hr : read_page w = (Ok (page w), w)) by reflexivity.
  rewrite (bind_ok _ _ _ _ _ Hr).
  destruct (JsString.truthy _); reflexivity.
Qed.

Lemma searchWeather_amid (between : list (World -> World)) (w : World) :
  amid between WeatherApp.searchWeather w =
  if JsString.truthy (JsString.trim (cityInput_value (page w)))
  then amid between
         (WeatherApp.getWeatherData (JsString.trim (cityInput_value (page w)))) w
  else WeatherApp.showError "Please enter a city name" w.
Proof.
  unfold amid at 1. rewrite searchWeather_cases.
  destruct (JsString.truthy _); reflexivity.
Qed.

(** C3, at the name "constructor".  The name is trimmed and not empty and
    is the key of no fixture, yet the search renders no report: the fetch
    hands back the member [constructor] of the prototype, the city heading
    keeps its former text and the page shows "City not found". *)
Theorem search_constructor_renders_no_report (w : World) :
  JsString.trim "constructor" = "constructor"
  /\ cities_in (typing "constructor" w) !! JsString.toLowerCase "constructor" = None
  /\ fst (alone WeatherApp.searchWeather (typing "constructor" w)) = Ok tt
  /\ cityName_text (page (snd (alone WeatherApp.searchWeather (typing "constructor" w))))
     = cityName_text (page w)
  /\ error_shown (page (snd (alone WeatherApp.searchWeather (typing "constructor" w))))
  /\ errorMessage_text
       (page (snd (alone WeatherApp.searchWeather (typing "constructor" w))))
     = "City not found. Please check the spelling and try again.".
Proof.
  split; [reflexivity|]. split.
  { unfold cities_in. rewrite cities_own_keys. reflexivity. }
  assert (E : alone WeatherApp.searchWeather (typing "constructor" w) =
              alone (WeatherApp.getWeatherData "constructor") (typing "constructor" w)).
  { unfold alone. rewrite searchWeather_amid. reflexivity. }
  rewrite E, (getWeatherData_inherited "constructor" _ eq_refl eq_refl).
  cbn [fst snd]. repeat split.
Qed.

(** C5, at the name "constructor".  The name is the key of no fixture;
    the fetch resolves, but with the member [constructor] of the
    prototype, which has no current conditions: no temperature and no
    description. *)
Theorem fetch_constructor_has_no_conditions (w : World) :
  cities_in w !! JsString.toLowerCase "constructor" = None
  /\ alone (WeatherApp.simulateWeatherAPI "constructor") w
     = (Ok (Inherited "constructor"), fetched w)
  /\ get_current (Inherited "constructor") = None
  /\ get_forecast (Inherited "constructor") = None.
Proof.
  split.
  { unfold cities_in. rewrite cities_own_keys. reflexivity. }
  split; [|split; reflexivity].
  apply (simulateWeatherAPI_inherited "constructor" w eq_refl eq_refl).
Qed.

(** C8, at the name "constructor".  The fetch resolves, the statements of
    the [try] block that follow it throw, and [getWeatherData] runs its
    [catch] block, which shows "City not found". *)
Theorem catch_block_reached_for_constructor (w : World) :
  let w1 := set_page (WeatherApp.showLoading_page (page w)) w in
  (exists found w2,
      alone (WeatherApp.simulateWeatherAPI "constructor") w1 = (Ok found, w2)
      /\ fst (try_rest found w2) = Throw (TypeError "data is undefined"))
  /\ alone (WeatherApp.getWeatherData "constructor") w =
     (Ok tt,
      set_page (failed "City not found. Please check the spelling and try again."
                  (page w1)) (fetched w1))
  /\ errorMessage_text (page (snd (alone (WeatherApp.getWeatherData "constructor") w)))
     = "City not found. Please check the spelling and try again."
  /\ error_hidden (page (snd (alone (WeatherApp.getWeatherData "constructor") w))) = false.
Proof.
  intros w1. split.
  { exists (Inherited "constructor"), (fetched w1). split; [|reflexivity].
    apply (simulateWeatherAPI_inherited "constructor" w1 eq_refl eq_refl). }
  rewrite (getWeatherData_inherited "constructor" w eq_refl eq_refl).
  repeat split.
Qed.

(** ** The name search beyond the prototype's property names *)

(** For a name whose lower case is no property name of the prototype, the
    fetch hands back a weather record: a fixture's under its own city
    name, or else a generic one under the name as given. *)
Lemma simulateWeatherAPI_city (city : string) (w : World) :
  bool_decide (JsString.toLowerCase city ∈ Object_prototype) = false ->
  exists r w',
    alone (WeatherApp.simulateWeatherAPI city) w = (Ok (Report r), w')
    /\ Current.city (current r) =
       (if String.eqb (JsString.toLowerCase city) "new york" then "New York"
        else if String.eqb (JsString.toLowerCase city) "london" then "London"
        else if String.eqb (JsString.toLowerCase city) "tokyo" then "Tokyo"
        else city)
    /\ Current.country (current r) =
       (if String.eqb (JsString.toLowerCase city) "new york" then "US"
        else if String.eqb (JsString.toLowerCase city) "london" then "UK"
        else if String.eqb (JsString.toLowerCase city) "tokyo" then "JP"
        else "Unknown").
Proof.
  intros Hout. rewrite simulateWeatherAPI_run. unfold cities_in.
  rewrite get_property_cities.
  destruct (String.eqb _ "new york"); [do 2 eexists; repeat split|].
  destruct (String.eqb _ "london"); [do 2 eexists; repeat split|].
  destruct (String.eqb _ "tokyo"); [do 2 eexists; repeat split|].
  rewrite Hout, generic_run. do 2 eexists. repeat split.
Qed.

(** A generic record has its temperature between 5 and 34 and the
    description "clear sky". *)
Lemma simulateWeatherAPI_generic_bounds (city : string) (w : World) :
  plain_key (JsString.toLowerCase city) = true ->
  exists r w',
    alone (WeatherApp.simulateWeatherAPI city) w = (Ok (Report r), w')
    /\ 5 <= Current.temperature (current r) <= 34
    /\ Current.description (current r) = "clear sky".
Proof.
  intros H. rewrite (simulateWeatherAPI_plain city w H).
  do 2 eexists. split; [reflexivity|].
  cbn [current]. pose proof (generic_current_bounds city (fetched w)) as (Ht & Hd & _).
  split; assumption.
Qed.

Lemma simulateWeatherAPI_page (city : string) (w w' : World) (found : Value) :
  alone (WeatherApp.simulateWeatherAPI city) w = (Ok found, w') -> page w' = page w.
Proof.
  rewrite simulateWeatherAPI_run.
  destruct (get_property _ _).
  - intros [= _ <-]. reflexivity.
  - rewrite generic_run. intros [= _ <-]. reflexivity.
Qed.

(** Run alone, the [catch] block of [getWeatherData] runs exactly for the
    names whose lower case is a property name of the prototype. *)
Lemma getWeatherData_error_iff (city : string) (w : World) :
  error_hidden (page (snd (alone (WeatherApp.getWeatherData city) w))) =
  negb (bool_decide (JsString.toLowerCase city ∈ Object_prototype)).
Proof.
  destruct (bool_decide (JsString.toLowerCase city ∈ Object_prototype)) eqn:Hin.
  - destruct (cities_key_free (JsString.toLowerCase city)) eqn:Hfree.
    + rewrite (getWeatherData_inherited city w Hfree Hin). reflexivity.
    + exfalso. unfold cities_key_free in Hfree.
      destruct (String.eqb_spec (JsString.toLowerCase city) "new york") as [E|_].
      { rewrite E in Hin. discriminate Hin. }
      destruct (String.eqb_spec (JsString.toLowerCase city) "london") as [E|_].
      { rewrite E in Hin. discriminate Hin. }
      destruct (String.eqb_spec (JsString.toLowerCase city) "tokyo") as [E|_].
      { rewrite E in Hin. discriminate Hin. }
      discriminate Hfree.
  - destruct (simulateWeatherAPI_city city
                (set_page (WeatherApp.showLoading_page (page w)) w) Hin)
      as (r & w2 & H & _).
    rewrite (getWeatherData_run city w _ _ H). cbn [snd].
    change (page (set_page ?x _)) with x.
    rewrite (simulateWeatherAPI_page _ _ _ _ H). reflexivity.
Qed.

(** * Further properties of the class *)

(** ** Closed forms *)

Lemma simulateWeatherAPI_lookup (city : string) (w : World) :
  alone (WeatherApp.simulateWeatherAPI city) w =
  (Ok (fst (name_lookup city w)), snd (name_lookup city w)).
Proof.
  rewrite simulateWeatherAPI_run. unfold name_lookup.
  destruct (get_property _ _); [reflexivity|]. apply generic_run.
Qed.

Lemma name_lookup_page (city : string) (w : World) :
  page (snd (name_lookup city w)) = page w.
Proof. unfold name_lookup. destruct (get_property _ _); reflexivity. Qed.

Lemma name_lookup_today (city : string) (w : World) :
  today (snd (name_lookup city w)) = today w.
Proof. unfold name_lookup. destruct (get_property _ _); reflexivity. Qed.

Lemma name_lookup_host_calls (city : string) (w : World) :
  host_calls (snd (name_lookup city w)) = SetTimeout 1000 :: host_calls w.
Proof. unfold name_lookup. destruct (get_property _ _); reflexivity. Qed.

(** The fetch does not look at the page. *)
Lemma name_lookup_set_page (city : string) (d : Dom) (w : World) :
  name_lookup city (set_page d w) =
  (fst (name_lookup city w), set_page d (snd (name_lookup city w))).
Proof.
  unfold name_lookup.
  change (cities_in (set_page d w)) with (cities_in w).
  destruct (get_property _ _); reflexivity.
Qed.

Lemma getWeatherData_lookup (city : string) (w : World) :
  alone (WeatherApp.getWeatherData city) w =
  let w1 := set_page (WeatherApp.showLoading_page (page w)) w in
  let w2 := snd (name_lookup city w1) in
  match fst (name_lookup city w1) with
  | Report r =>
      (Ok tt, set_page (rendered r (today w) (WeatherApp.showLoading_page (page w))) w2)
  | Inherited _ =>
      (Ok tt,
       set_page (failed "City not found. Please check the spelling and try again."
                   (WeatherApp.showLoading_page (page w))) w2)
  end.
Proof.
  cbv zeta.
  rewrite (getWeatherData_run city w _ _ (simulateWeatherAPI_lookup city _)).
  rewrite name_lookup_page, name_lookup_today. reflexivity.
Qed.

(** Outside the property names of the prototype the lookup gives a
    weather record, whatever the world the timer fires in. *)
Lemma lookup_at_report (city : string) (w : World) :
  bool_decide (JsString.toLowerCase city ∈ Object_prototype) = false ->
  exists r, fst (lookup_at city w) = Report r
            /\ Current.city (current r) ++
               (if JsString.truthy (Current.country (current r))
                then ", " ++ Current.country (current r) else "")
               = heading_of city.
Proof.
  intros Hout. unfold lookup_at, heading_of.
  rewrite get_property_cities.
  destruct (String.eqb _ "new york"); [eexists; split; reflexivity|].
  destruct (String.eqb _ "london"); [eexists; split; reflexivity|].
  destruct (String.eqb _ "tokyo"); [eexists; split; reflexivity|].
  rewrite Hout. eexists; split; reflexivity.
Qed.

Lemma name_lookup_report (city : string) (w : World) :
  bool_decide (JsString.toLowerCase city ∈ Object_prototype) = false ->
  exists r, fst (name_lookup city w) = Report r
            /\ Current.city (current r) ++
               (if JsString.truthy (Current.country (current r))
                then ", " ++ Current.country (current r) else "")
               = heading_of city.
Proof. apply (lookup_at_report city (called (SetTimeout 1000) w)). Qed.

(** With the capability there, [getCurrentLocation] shows the loading
    state, makes its request and stops; the answer decides what runs. *)
Lemma getCurrentLocation_suspends (w : World) (g : GeoOutcome) :
  geolocation w = Some g ->
  exists resume,
    WeatherApp.getCurrentLocation w =
    (AwaitPosition resume,
     called GetCurrentPosition (set_page (WeatherApp.showLoading_page (page w)) w))
    /\ forall answer w',
         resume answer w' =
         match answer with
         | GeoPosition latitude longitude =>
             WeatherApp.getWeatherByCoords latitude longitude w'
         | GeoError =>
             (Ok tt,
              set_page (failed "Unable to get your location. Please search manually."
                          (page w')) w')
         | GeoSilent => (Ok tt, w')
         end.
Proof.
  intros E. unfold WeatherApp.getCurrentLocation.
  assert (Hg : navigator_geolocation w = (Ok (geolocation w), w)) by reflexivity.
  rewrite (bind_ok _ _ _ _ _ Hg), E.
  eexists. split; [reflexivity|].
  intros [lat lon| |] w'; reflexivity.
Qed.

(** [getCurrentLocation] with other handlers running at its suspensions:
    the answer is the one the world holds when the host gives it. *)
Lemma getCurrentLocation_amid (between : list (World -> World)) (w : World) :
  amid between WeatherApp.getCurrentLocation w =
  match geolocation w with
  | None =>
      (Ok tt,
       set_page (WeatherApp.showError_page
                   "Geolocation is not supported by this browser" (page w)) w)
  | Some _ =>
      let w1 := hd id between
                  (called GetCurrentPosition
                     (set_page (WeatherApp.showLoading_page (page w)) w)) in
      match default GeoSilent (geolocation w1) with
      | GeoPosition latitude longitude =>
          amid (tl between) (WeatherApp.getWeatherByCoords latitude longitude) w1
      | GeoError =>
          (Ok tt,
           set_page (failed "Unable to get your location. Please search manually."
                       (page w1)) w1)
      | GeoSilent => (Ok tt, w1)
      end
  end.
Proof.
  destruct (geolocation w) as [g|] eqn:E.
  - destruct (getCurrentLocation_suspends w g E) as (resume & Hs & Hr).
    unfold amid at 1. rewrite Hs. cbn [finish]. cbv zeta. rewrite Hr.
    destruct (default GeoSilent (geolocation _)); reflexivity.
  - apply amid_ok. unfold WeatherApp.getCurrentLocation.
    assert (Hg : navigator_geolocation w = (Ok (geolocation w), w)) by reflexivity.
    rewrite (bind_ok _ _ _ _ _ Hg), E. reflexivity.
Qed.

(** ** getCurrentLocation *)

(** X1. Without [navigator.geolocation], [getCurrentLocation] shows
    "Geolocation is not supported by this browser" and does nothing else:
    no position is requested and the loading indicator is not touched. *)
Theorem getCurrentLocation_unsupported (w : World) :
  geolocation w = None ->
  WeatherApp.getCurrentLocation w =
  (Ok tt,
   set_page (WeatherApp.showError_page
               "Geolocation is not supported by this browser" (page w)) w)
  /\ error_shown (page (snd (WeatherApp.getCurrentLocation w)))
  /\ host_calls (snd (WeatherApp.getCurrentLocation w)) = host_calls w
  /\ loading_hidden (page (snd (WeatherApp.getCurrentLocation w)))
     = loading_hidden (page w).
Proof.
  intros H.
  assert (E : WeatherApp.getCurrentLocation w =
              (Ok tt,
               set_page (WeatherApp.showError_page
                           "Geolocation is not supported by this browser" (page w)) w)).
  { unfold WeatherApp.getCurrentLocation.
    assert (Hg : navigator_geolocation w = (Ok (geolocation w), w)) by reflexivity.
    rewrite (bind_ok _ _ _ _ _ Hg), H. reflexivity. }
  rewrite E. repeat split.
Qed.

Lemma getCurrentLocation_unsupported_witness :
  WeatherApp.getCurrentLocation fresh_world =
  (Ok tt,
   set_page (WeatherApp.showError_page
               "Geolocation is not supported by this browser" (page fresh_world))
     fresh_world)
  /\ error_shown (page (snd (WeatherApp.getCurrentLocation fresh_world)))
  /\ host_calls (snd (WeatherApp.getCurrentLocation fresh_world)) = host_calls fresh_world
  /\ loading_hidden (page (snd (WeatherApp.getCurrentLocation fresh_world)))
     = loading_hidden (page fresh_world).
Proof. apply (getCurrentLocation_unsupported fresh_world). reflexivity. Defined.

(** X2. When the position request fails, [getCurrentLocation] ends with
    the loading indicator hidden and "Unable to get your location. Please
    search manually." on show in place of the result regions; the position
    was requested once, no timer was set and no random number drawn. *)
Theorem getCurrentLocation_denied (w : World) :
  geolocation w = Some GeoError ->
  fst (alone WeatherApp.getCurrentLocation w) = Ok tt
  /\ settled (page (snd (alone WeatherApp.getCurrentLocation w)))
  /\ error_shown (page (snd (alone WeatherApp.getCurrentLocation w)))
  /\ errorMessage_text (page (snd (alone WeatherApp.getCurrentLocation w)))
     = "Unable to get your location. Please search manually."
  /\ host_calls (snd (alone WeatherApp.getCurrentLocation w))
     = GetCurrentPosition :: host_calls w
  /\ random_drawn (snd (alone WeatherApp.getCurrentLocation w)) = random_drawn w.
Proof.
  intros H. rewrite getCurrentLocation_run, H. cbn [fst snd].
  split; [reflexivity|]. split; [apply failed_settled|]. repeat split.
Qed.

Lemma getCurrentLocation_denied_witness :
  fst (alone WeatherApp.getCurrentLocation (with_geolocation (Some GeoError) fresh_world))
  = Ok tt
  /\ settled (page (snd (alone WeatherApp.getCurrentLocation
                           (with_geolocation (Some GeoError) fresh_world))))
  /\ error_shown (page (snd (alone WeatherApp.getCurrentLocation
                               (with_geolocation (Some GeoError) fresh_world))))
  /\ errorMessage_text (page (snd (alone WeatherApp.getCurrentLocation
                                     (with_geolocation (Some GeoError) fresh_world))))
     = "Unable to get your location. Please search manually."
  /\ host_calls (snd (alone WeatherApp.getCurrentLocation
                        (with_geolocation (Some GeoError) fresh_world)))
     = GetCurrentPosition :: host_calls (with_geolocation (Some GeoError) fresh_world)
  /\ random_drawn (snd (alone WeatherApp.getCurrentLocation
                          (with_geolocation (Some GeoError) fresh_world)))
     = random_drawn (with_geolocation (Some GeoError) fresh_world).
Proof.
  apply (getCurrentLocation_denied (with_geolocation (Some GeoError) fresh_world)).
  reflexivity.
Defined.

(** X3. When the position request calls neither callback,
    [getCurrentLocation] leaves the page loading: the indicator is on show,
    the error and result regions are hidden, and the page is not settled. *)
Theorem getCurrentLocation_unanswered (w : World) :
  geolocation w = Some GeoSilent ->
  page (snd (alone WeatherApp.getCurrentLocation w))
  = WeatherApp.showLoading_page (page w)
  /\ loading_hidden (page (snd (alone WeatherApp.getCurrentLocation w))) = false
  /\ error_hidden (page (snd (alone WeatherApp.getCurrentLocation w))) = true
  /\ currentWeather_hidden (page (snd (alone WeatherApp.getCurrentLocation w))) = true
  /\ forecast_hidden (page (snd (alone WeatherApp.getCurrentLocation w))) = true
  /\ ~ settled (page (snd (alone WeatherApp.getCurrentLocation w))).
Proof.
  intros H. rewrite getCurrentLocation_run, H. cbn [snd].
  repeat split. intros [Hl _]. discriminate Hl.
Qed.

Lemma getCurrentLocation_unanswered_witness :
  page (snd (alone WeatherApp.getCurrentLocation
               (with_geolocation (Some GeoSilent) fresh_world)))
  = WeatherApp.showLoading_page (page (with_geolocation (Some GeoSilent) fresh_world))
  /\ loading_hidden (page (snd (alone WeatherApp.getCurrentLocation
                                  (with_geolocation (Some GeoSilent) fresh_world)))) = false
  /\ error_hidden (page (snd (alone WeatherApp.getCurrentLocation
                                (with_geolocation (Some GeoSilent) fresh_world)))) = true
  /\ currentWeather_hidden (page (snd (alone WeatherApp.getCurrentLocation
                                  (with_geolocation (Some GeoSilent) fresh_world)))) = true
  /\ forecast_hidden (page (snd (alone WeatherApp.getCurrentLocation
                                   (with_geolocation (Some GeoSilent) fresh_world)))) = true
  /\ ~ settled (page (snd (alone WeatherApp.getCurrentLocation
                             (with_geolocation (Some GeoSilent) fresh_world)))).
Proof.
  apply (getCurrentLocation_unanswered (with_geolocation (Some GeoSilent) fresh_world)).
  reflexivity.
Defined.

(** X4. Whatever the coordinates the position request answers with:
    when no other handler runs between the request, its answer and the
    timer of the fetch, [getCurrentLocation] ends settled with the result
    regions on show, the heading "Your Location" and the fixed read-outs
    (20 degrees, "clear sky"), after one position request, one timer and
    ten random numbers; and whatever other handlers do while the fetch by
    coordinates is pending, it ends with the loading indicator hidden, the
    result regions on show, that heading and those read-outs. *)
Theorem getCurrentLocation_any_position (lat lon : float) (w : World) :
  (let run := alone WeatherApp.getCurrentLocation
                (with_geolocation (Some (GeoPosition lat lon)) w) in
   fst run = Ok tt
   /\ settled (page (snd run))
   /\ success_shown (page (snd run))
   /\ cityName_text (page (snd run)) = "Your Location"
   /\ currentTemp_number (page (snd run)) = 20
   /\ weatherDescription_text (page (snd run)) = "clear sky"
   /\ host_calls (snd run) = SetTimeout 1000 :: GetCurrentPosition :: host_calls w
   /\ random_drawn (snd run) = (10 + random_drawn w)%nat)
  /\ (forall between,
         let run := amid between (WeatherApp.getWeatherByCoords lat lon) w in
         fst run = Ok tt
         /\ loading_hidden (page (snd run)) = true
         /\ currentWeather_hidden (page (snd run)) = false
         /\ forecast_hidden (page (snd run)) = false
         /\ cityName_text (page (snd run)) = "Your Location"
         /\ currentTemp_number (page (snd run)) = 20
         /\ weatherDescription_text (page (snd run)) = "clear sky").
Proof.
  split.
  - cbv zeta. rewrite getCurrentLocation_run.
    cbn [geolocation with_geolocation]. cbv zeta.
    rewrite getWeatherByCoords_run. cbn [fst snd].
    split; [reflexivity|]. split; [apply rendered_settled; reflexivity|].
    repeat split.
  - intros between. cbv zeta. rewrite getWeatherByCoords_amid.
    repeat split.
Qed.

(** ** Errors stay inside the class *)

Lemma resumed_name_ok (city : string) (w : World) : fst (resumed_name city w) = Ok tt.
Proof. unfold resumed_name. destruct (fst (lookup_at city w)); reflexivity. Qed.

Lemma getWeatherData_ok (between : list (World -> World)) (city : string) (w : World) :
  fst (amid between (WeatherApp.getWeatherData city) w) = Ok tt.
Proof. rewrite getWeatherData_amid. apply resumed_name_ok. Qed.

Lemma searchWeather_ok (between : list (World -> World)) (w : World) :
  fst (amid between WeatherApp.searchWeather w) = Ok tt.
Proof.
  rewrite searchWeather_amid.
  destruct (JsString.truthy _); [apply getWeatherData_ok | reflexivity].
Qed.

Lemma getCurrentLocation_ok (between : list (World -> World)) (w : World) :
  fst (amid between WeatherApp.getCurrentLocation w) = Ok tt.
Proof.
  rewrite getCurrentLocation_amid.
  destruct (geolocation w); [|reflexivity]. cbv zeta.
  destruct (default GeoSilent (geolocation _)) as [lat lon| |];
    [rewrite getWeatherByCoords_amid| |]; reflexivity.
Qed.

(** X5. No listener and no start-up ends in a thrown error: for every
    event and every world, and whatever other handlers do at the
    suspensions, the handler ends normally, and so does the constructor's
    default load.  The [TypeError] of a failed rendering is caught inside
    [getWeatherData]. *)
Theorem no_error_escapes :
  (forall between e w, fst (amid between (WeatherApp.dispatch e) w) = Ok tt)
  /\ (forall between w, fst (amid between WeatherApp.constructor w) = Ok tt)
  /\ (forall between city w,
         fst (amid between (WeatherApp.getWeatherData city) w) = Ok tt)
  /\ (forall between lat lon w,
         fst (amid between (WeatherApp.getWeatherByCoords lat lon) w) = Ok tt).
Proof.
  split; [|split; [|split]].
  - intros between [|key|] w; cbn [WeatherApp.dispatch].
    + apply searchWeather_ok.
    + destruct (String.eqb key "Enter"); [apply searchWeather_ok | reflexivity].
    + apply getCurrentLocation_ok.
  - intros between w. apply getWeatherData_ok.
  - apply getWeatherData_ok.
  - intros between lat lon w. rewrite getWeatherByCoords_amid. reflexivity.
Qed.

(** ** The generic record *)

(** X6. For a name that is no fixture's and no property name of the
    prototype, the fetch resolves with a record under that very name and
    the country "Unknown", whose numbers lie in fixed ranges: temperature
    and feels-like 5..34, humidity 40..79, wind speed 5..19, pressure
    1000..1049, visibility 5..14, UV index 1..10, cloudiness 20..79. *)
Theorem generic_record_ranges (city : string) (w : World) :
  plain_key (JsString.toLowerCase city) = true ->
  exists r w',
    alone (WeatherApp.simulateWeatherAPI city) w = (Ok (Report r), w')
    /\ Current.city (current r) = city
    /\ Current.country (current r) = "Unknown"
    /\ 5 <= Current.temperature (current r) <= 34
    /\ 5 <= Current.feelsLike (current r) <= 34
    /\ 40 <= Current.humidity (current r) <= 79
    /\ 5 <= Current.windSpeed (current r) <= 19
    /\ 1000 <= Current.pressure (current r) <= 1049
    /\ 5 <= Current.visibility (current r) <= 14
    /\ 1 <= Current.uvIndex (current r) <= 10
    /\ 20 <= Current.cloudiness (current r) <= 79.
Proof.
  intros H. rewrite (simulateWeatherAPI_plain city w H).
  do 2 eexists. split; [reflexivity|].
  cbn [current]. unfold generic_current.
  cbn [Current.city Current.country Current.temperature Current.feelsLike
       Current.humidity Current.windSpeed Current.pressure Current.visibility
       Current.uvIndex Current.cloudiness].
  set (tape := random_tape (fetched w)). set (p := random_drawn (fetched w)).
  pose proof (floor_times_range (tape (0 + p)%nat) 30 ltac:(lia)).
  pose proof (floor_times_range (tape (1 + p)%nat) 30 ltac:(lia)).
  pose proof (floor_times_range (tape (2 + p)%nat) 40 ltac:(lia)).
  pose proof (floor_times_range (tape (3 + p)%nat) 15 ltac:(lia)).
  pose proof (floor_times_range (tape (4 + p)%nat) 50 ltac:(lia)).
  pose proof (floor_times_range (tape (5 + p)%nat) 10 ltac:(lia)).
  pose proof (floor_times_range (tape (6 + p)%nat) 10 ltac:(lia)).
  pose proof (floor_times_range (tape (7 + p)%nat) 60 ltac:(lia)).
  repeat split; lia.
Qed.

Lemma generic_record_ranges_witness :
  exists r w',
    alone (WeatherApp.simulateWeatherAPI "Paris") fresh_world = (Ok (Report r), w')
    /\ Current.city (current r) = "Paris"
    /\ Current.country (current r) = "Unknown"
    /\ 5 <= Current.temperature (current r) <= 34
    /\ 5 <= Current.feelsLike (current r) <= 34
    /\ 40 <= Current.humidity (current r) <= 79
    /\ 5 <= Current.windSpeed (current r) <= 19
    /\ 1000 <= Current.pressure (current r) <= 1049
    /\ 5 <= Current.visibility (current r) <= 14
    /\ 1 <= Current.uvIndex (current r) <= 10
    /\ 20 <= Current.cloudiness (current r) <= 79.
Proof. apply (generic_record_ranges "Paris" fresh_world). reflexivity. Defined.

(** ** The name search *)

(** X7. For a name whose lower case is no property name of the prototype:
    whatever other handlers do while the fetch is pending, [getWeatherData]
    ends with the loading indicator hidden, the result regions on show,
    five forecast items, and the heading "New York, US", "London, UK" or
    "Tokyo, JP" for a fixture and the name followed by ", Unknown"
    otherwise; and when no other handler runs meanwhile, the error region
    is hidden beside them and the page is settled. *)
Theorem name_search_heading (city : string) (w : World) :
  bool_decide (JsString.toLowerCase city ∈ Object_prototype) = false ->
  (forall between,
      loading_hidden (page (snd (amid between (WeatherApp.getWeatherData city) w))) = true
      /\ currentWeather_hidden
           (page (snd (amid between (WeatherApp.getWeatherData city) w))) = false
      /\ forecast_hidden (page (snd (amid between (WeatherApp.getWeatherData city) w)))
         = false
      /\ cityName_text (page (snd (amid between (WeatherApp.getWeatherData city) w)))
         = heading_of city
      /\ length (forecastContainer_children
                   (page (snd (amid between (WeatherApp.getWeatherData city) w))))
         = 5%nat)
  /\ settled (page (snd (alone (WeatherApp.getWeatherData city) w)))
  /\ success_shown (page (snd (alone (WeatherApp.getWeatherData city) w))).
Proof.
  intros Hout.
  assert (Hpage : forall between, exists r,
             map Forecast.day (forecast r) = WeatherApp.days
             /\ Current.city (current r) ++
                (if JsString.truthy (Current.country (current r))
                 then ", " ++ Current.country (current r) else "")
                = heading_of city
             /\ page (snd (amid between (WeatherApp.getWeatherData city) w))
                = rendered r (today (hd id between (loading w)))
                    (page (hd id between (loading w)))).
  { intros between.
    destruct (lookup_at_report city (hd id between (loading w)) Hout) as (r & Hr & Hh).
    exists r. split; [apply (lookup_at_report_days _ _ _ Hr)|]. split; [exact Hh|].
    rewrite getWeatherData_amid, resumed_name_page, Hr. reflexivity. }
  split.
  - intros between. destruct (Hpage between) as (r & Hd & Hh & ->).
    split; [reflexivity|]. split; [reflexivity|]. split; [reflexivity|].
    split; [exact Hh|].
    unfold rendered. cbn [forecastContainer_children WeatherApp.set_hidden_loading
      WeatherApp.set_hidden_forecast WeatherApp.set_children_forecastContainer].
    rewrite length_map, <- (length_map Forecast.day), Hd. reflexivity.
  - unfold alone. destruct (Hpage []) as (r & _ & _ & ->).
    split; [apply rendered_settled; reflexivity|]. repeat split.
Qed.

Lemma name_search_heading_witness :
  (forall between,
      loading_hidden
        (page (snd (amid between (WeatherApp.getWeatherData "Tokyo") fresh_world))) = true
      /\ currentWeather_hidden
           (page (snd (amid between (WeatherApp.getWeatherData "Tokyo") fresh_world)))
         = false
      /\ forecast_hidden
           (page (snd (amid between (WeatherApp.getWeatherData "Tokyo") fresh_world)))
         = false
      /\ cityName_text
           (page (snd (amid between (WeatherApp.getWeatherData "Tokyo") fresh_world)))
         = heading_of "Tokyo"
      /\ length (forecastContainer_children
                   (page (snd (amid between (WeatherApp.getWeatherData "Tokyo")
                                 fresh_world))))
         = 5%nat)
  /\ settled (page (snd (alone (WeatherApp.getWeatherData "Tokyo") fresh_world)))
  /\ success_shown (page (snd (alone (WeatherApp.getWeatherData "Tokyo") fresh_world))).
Proof. apply (name_search_heading "Tokyo" fresh_world). reflexivity. Defined.

(** X8. A name that reaches a fixture (or a member of the prototype) is
    looked up by its lower case alone: two names with the same lower case
    give the same outcome of the fetch, in every world and whatever
    happens before the timer fires. *)
Theorem same_key_same_fetch (a b : string) (w : World) (between : list (World -> World)) :
  JsString.toLowerCase a = JsString.toLowerCase b ->
  plain_key (JsString.toLowerCase a) = false ->
  amid between (WeatherApp.simulateWeatherAPI a) w
  = amid between (WeatherApp.simulateWeatherAPI b) w.
Proof.
  intros Heq Hkey. rewrite !simulateWeatherAPI_amid.
  set (w' := hd id between _).
  assert (E : lookup_at a w' = lookup_at b w').
  { unfold lookup_at. rewrite <- Heq.
    destruct (get_property _ (JsString.toLowerCase a)) eqn:E; [reflexivity|].
    exfalso. rewrite get_property_cities in E.
    unfold plain_key, cities_key_free in Hkey.
    destruct (String.eqb _ "new york"); [discriminate E|].
    destruct (String.eqb _ "london"); [discriminate E|].
    destruct (String.eqb _ "tokyo"); [discriminate E|].
    destruct (bool_decide _); [discriminate E | discriminate Hkey]. }
  rewrite E. reflexivity.
Qed.

Lemma same_key_same_fetch_witness :
  amid [] (WeatherApp.simulateWeatherAPI "TOKYO") fresh_world
  = amid [] (WeatherApp.simulateWeatherAPI "Tokyo") fresh_world.
Proof. apply (same_key_same_fetch "TOKYO" "Tokyo" fresh_world []); reflexivity. Defined.

(** X9. Only the temperatures of a generated forecast vary: whatever the
    random numbers, its descriptions are sunny, partly cloudy, cloudy,
    light rain, clear and its icons the matching five, in that order, and
    generating it takes ten random numbers and changes nothing else. *)
Theorem forecast_descriptions_and_icons (w : World) :
  exists f,
    WeatherApp.generateMockForecast w = (Ok f, draw 10 w)
    /\ map Forecast.description f
       = ["sunny"; "partly cloudy"; "cloudy"; "light rain"; "clear"]
    /\ map Forecast.icon f
       = ["fas fa-sun"; "fas fa-cloud-sun"; "fas fa-cloud"; "fas fa-cloud-rain";
          "fas fa-sun"].
Proof.
  exists (mock_forecast w). split; [apply generateMockForecast_run|].
  split; reflexivity.
Qed.

(** ** Rendering *)

(** X10. [displayForecast] rebuilds the container: showing a forecast
    after another leaves the world as if only the second had been shown,
    with one item per entry of the second. *)
Theorem displayForecast_rebuilds (f g : list Forecast.entry) (w : World) :
  WeatherApp.displayForecast (Some g) (snd (WeatherApp.displayForecast (Some f) w))
  = WeatherApp.displayForecast (Some g) w
  /\ forecastContainer_children (page (snd (WeatherApp.displayForecast (Some g) w)))
     = map WeatherApp.forecastItem g
  /\ length (forecastContainer_children (page (snd (WeatherApp.displayForecast (Some g) w))))
     = length g.
Proof.
  rewrite !displayForecast_some. cbn [snd].
  split; [reflexivity|]. split; [reflexivity|].
  change (forecastContainer_children (page (set_page ?d _)))
    with (forecastContainer_children d).
  cbn [forecastContainer_children WeatherApp.set_hidden_forecast
       WeatherApp.set_children_forecastContainer].
  apply length_map.
Qed.

(** X11. Constructing the application loads New York.  Whatever other
    handlers do while the load is pending, it ends with the loading
    indicator hidden, the result regions on show, the heading
    "New York, US" and the fixture's read-outs; and when no other handler
    runs meanwhile, the error region is hidden beside them, the page is
    settled, the date is the day's and exactly one timer has been set. *)
Theorem constructor_loads_new_york (w : World) :
  (forall between,
      fst (amid between WeatherApp.constructor w) = Ok tt
      /\ loading_hidden (page (snd (amid between WeatherApp.constructor w))) = true
      /\ currentWeather_hidden (page (snd (amid between WeatherApp.constructor w))) = false
      /\ forecast_hidden (page (snd (amid between WeatherApp.constructor w))) = false
      /\ cityName_text (page (snd (amid between WeatherApp.constructor w)))
         = "New York, US"
      /\ currentTemp_number (page (snd (amid between WeatherApp.constructor w))) = 22
      /\ feelsLike_number (page (snd (amid between WeatherApp.constructor w))) = 25
      /\ weatherDescription_text (page (snd (amid between WeatherApp.constructor w)))
         = "partly cloudy")
  /\ settled (page (snd (alone WeatherApp.constructor w)))
  /\ success_shown (page (snd (alone WeatherApp.constructor w)))
  /\ weatherDate_text (page (snd (alone WeatherApp.constructor w))) = today w
  /\ host_calls (snd (alone WeatherApp.constructor w)) = SetTimeout 1000 :: host_calls w.
Proof.
  assert (Hl : forall w', lookup_at "New York" w' =
                          (Report {| current := WeatherApp.new_york;
                                     forecast := mock_forecast w' |}, draw 30 w')).
  { intros w'. unfold lookup_at. rewrite get_property_cities. reflexivity. }
  assert (Hrun : forall between,
             amid between WeatherApp.constructor w =
             (Ok tt,
              set_page (rendered {| current := WeatherApp.new_york;
                                    forecast := mock_forecast (hd id between (loading w)) |}
                          (today (hd id between (loading w)))
                          (page (hd id between (loading w))))
                (draw 30 (hd id between (loading w))))).
  { intros between.
    unfold WeatherApp.constructor, WeatherApp.loadDefaultWeather.
    rewrite getWeatherData_amid. unfold resumed_name. rewrite Hl. reflexivity. }
  split.
  - intros between. rewrite Hrun. repeat split.
  - unfold alone. rewrite Hrun. cbn [hd id snd].
    split; [apply rendered_settled; reflexivity|]. repeat split.
Qed.

(** ** The search field *)

(** X12. When the search field holds anything but white space,
    [searchWeather] fetches for the trimmed text: it is [getWeatherData]
    on the field's content without its leading and trailing white space. *)
Theorem searchWeather_fetches_trimmed (w : World) :
  JsString.all_space (cityInput_value (page w)) = false ->
  WeatherApp.searchWeather w =
  WeatherApp.getWeatherData (JsString.trim (cityInput_value (page w))) w.
Proof.
  intros H. rewrite searchWeather_cases.
  destruct (JsString.trim (cityInput_value (page w))) eqn:E; [|reflexivity].
  apply trim_empty_iff in E. congruence.
Qed.

Lemma searchWeather_fetches_trimmed_witness :
  WeatherApp.searchWeather (typing "  Paris " fresh_world) =
  WeatherApp.getWeatherData
    (JsString.trim (cityInput_value (page (typing "  Paris " fresh_world))))
    (typing "  Paris " fresh_world).
Proof.
  apply (searchWeather_fetches_trimmed (typing "  Paris " fresh_world)). reflexivity.
Defined.

(** A key press other than Enter in the search field changes nothing,
    and Enter does what a click on the search button does. *)
Theorem keypress_only_enter_searches (key : string) (w : World) :
  key <> "Enter" ->
  WeatherApp.dispatch (WeatherApp.KeyPress key) w = (Ok tt, w)
  /\ WeatherApp.dispatch (WeatherApp.KeyPress "Enter") w
     = WeatherApp.dispatch WeatherApp.ClickSearch w.
Proof.
  intros H. cbn [WeatherApp.dispatch].
  destruct (String.eqb_spec key "Enter") as [E|_]; [contradiction|].
  split; reflexivity.
Qed.

Lemma keypress_only_enter_searches_witness :
  WeatherApp.dispatch (WeatherApp.KeyPress "a") fresh_world = (Ok tt, fresh_world)
  /\ WeatherApp.dispatch (WeatherApp.KeyPress "Enter") fresh_world
     = WeatherApp.dispatch WeatherApp.ClickSearch fresh_world.
Proof.
  apply (keypress_only_enter_searches "a" fresh_world). discriminate.
Defined.

Lemma getWeatherData_cityInput (city : string) (w : World) :
  cityInput_value (page (snd (alone (WeatherApp.getWeatherData city) w)))
  = cityInput_value (page w).
Proof.
  rewrite getWeatherData_lookup. cbv zeta.
  destruct (fst (name_lookup city _)); reflexivity.
Qed.

Lemma searchWeather_cityInput (w : World) :
  cityInput_value (page (snd (alone WeatherApp.searchWeather w)))
  = cityInput_value (page w).
Proof.
  unfold alone. rewrite searchWeather_amid.
  destruct (JsString.truthy _); [apply getWeatherData_cityInput | reflexivity].
Qed.

(** X13. No handler writes to the search field: after any event has been
    handled to its end, the field holds what it held before. *)
Theorem search_field_is_kept (e : WeatherApp.UiEvent) (w : World) :
  cityInput_value (page (snd (alone (WeatherApp.dispatch e) w)))
  = cityInput_value (page w).
Proof.
  destruct e as [|key|]; cbn [WeatherApp.dispatch].
  - apply searchWeather_cityInput.
  - destruct (String.eqb key "Enter"); [apply searchWeather_cityInput | reflexivity].
  - rewrite getCurrentLocation_run.
    destruct (geolocation w) as [[lat lon| |]|]; reflexivity.
Qed.

(** ** One fetch after another *)

(** X14. A name search that renders owes nothing to the page it started
    from: for a name whose lower case is no property name of the
    prototype, the flags, heading, date, read-outs, icon and forecast
    items after [getWeatherData], run with no other handler meanwhile, are
    the same from any two pages. *)
Theorem name_search_overwrites_display (city : string) (d : Dom) (w : World) :
  bool_decide (JsString.toLowerCase city ∈ Object_prototype) = false ->
  display_of (page (snd (alone (WeatherApp.getWeatherData city) (set_page d w))))
  = display_of (page (snd (alone (WeatherApp.getWeatherData city) w))).
Proof.
  intros Hout. rewrite !getWeatherData_lookup. cbv zeta.
  change (set_page (WeatherApp.showLoading_page (page (set_page d w))) (set_page d w))
    with (set_page (WeatherApp.showLoading_page d) w).
  change (today (set_page d w)) with (today w).
  change (page (set_page d w)) with d.
  rewrite !name_lookup_set_page. cbn [fst snd].
  destruct (name_lookup_report city w Hout) as (r & Hr & _).
  rewrite Hr. reflexivity.
Qed.

Lemma name_search_overwrites_display_witness :
  display_of (page (snd (alone (WeatherApp.getWeatherData "Paris")
                           (set_page (WeatherApp.showError_page "old" fresh_page)
                              fresh_world))))
  = display_of (page (snd (alone (WeatherApp.getWeatherData "Paris") fresh_world))).
Proof.
  apply (name_search_overwrites_display "Paris"
           (WeatherApp.showError_page "old" fresh_page) fresh_world).
  reflexivity.
Defined.

(** X15. A search by coordinates owes nothing to the page it started from
    either, nor to the coordinates: what is displayed after
    [getWeatherByCoords], run with no other handler meanwhile, is the same
    from any two pages and for any two pairs of coordinates. *)
Theorem coords_search_overwrites_display
  (lat1 lon1 lat2 lon2 : float) (d : Dom) (w : World) :
  display_of (page (snd (alone (WeatherApp.getWeatherByCoords lat1 lon1) (set_page d w))))
  = display_of (page (snd (alone (WeatherApp.getWeatherByCoords lat2 lon2) w))).
Proof. rewrite !getWeatherByCoords_run. reflexivity. Qed.

(** X16. Each fetch method sets exactly one timer, of 1000 ms, and calls
    the host for nothing else, whichever branch it takes. *)
Theorem each_fetch_sets_one_timer :
  (forall city w,
      host_calls (snd (alone (WeatherApp.getWeatherData city) w))
      = SetTimeout 1000 :: host_calls w)
  /\ (forall lat lon w,
         host_calls (snd (alone (WeatherApp.getWeatherByCoords lat lon) w))
         = SetTimeout 1000 :: host_calls w).
Proof.
  split.
  - intros city w. rewrite getWeatherData_lookup. cbv zeta.
    destruct (fst (name_lookup city _)); cbn [snd];
      change (host_calls (set_page ?d ?x)) with (host_calls x);
      rewrite name_lookup_host_calls; reflexivity.
  - intros lat lon w. rewrite getWeatherByCoords_run. reflexivity.
Qed.

(** ** While a fetch is pending *)

